(** * SweTrack: the polling/fetch engine

    A shallow embedding of
    - [custom_components/swetrack/api.py]         (module [Api]),
    - [custom_components/swetrack/coordinator.py] (module [Coordinator]),
    - [swetrack_extended.py]                      (module [Cli]),
    over a small model of the Python values these files handle (module [Py])
    and of the HTTP collaborator (module [Http]). *)

From Stdlib Require Import ZArith List String Bool Lia.
From Stdlib Require Import Floats.SpecFloat.
Import ListNotations.

Set Warnings "-register-all".

Local Open Scope string_scope.
Local Open Scope list_scope.
Local Open Scope Z_scope.

(* ===================================================================== *)
(** * Python values as decoded from JSON *)
(* ===================================================================== *)

Module Py.

(** What [json.loads] / [resp.json()] can produce.  A [dict] is kept as an
    association list in insertion order; a decoded object has each key once,
    and [assoc] reads the first binding.  A [float] is an IEEE-754 value. *)
Inductive json : Type :=
| JNull
| JBool (b : bool)
| JInt (z : Z)
| JFloat (f : spec_float)
| JStr (s : string)
| JList (l : list json)
| JDict (d : list (string * json)).

Definition pydict : Type := list (string * json).

Fixpoint assoc {V} (k : string) (d : list (string * V)) : option V :=
  match d with
  | [] => None
  | (k', v) :: d' => if String.eqb k k' then Some v else assoc k d'
  end.

(** [d.get(k)] and [d.get(k, default)] on a dict. *)
Definition get (d : pydict) (k : string) : json :=
  match assoc k d with Some v => v | None => JNull end.

Definition get_default (d : pydict) (k : string) (default : json) : json :=
  match assoc k d with Some v => v | None => default end.

(** [type(v).__name__] *)
Definition type_name (v : json) : string :=
  match v with
  | JNull => "NoneType"
  | JBool _ => "bool"
  | JInt _ => "int"
  | JFloat _ => "float"
  | JStr _ => "str"
  | JList _ => "list"
  | JDict _ => "dict"
  end.

Definition float_is_zero (f : spec_float) : bool :=
  match f with S754_zero _ => true | _ => false end.

(** [bool(v)] *)
Definition truthy (v : json) : bool :=
  match v with
  | JNull => false
  | JBool b => b
  | JInt z => negb (z =? 0)
  | JFloat f => negb (float_is_zero f)
  | JStr s => negb (String.eqb s "")
  | JList l => match l with [] => false | _ => true end
  | JDict d => match d with [] => false | _ => true end
  end.

(** [a or b], both operands already evaluated *)
Definition py_or (a b : json) : json := if truthy a then a else b.

(** [v is False] *)
Definition is_False (v : json) : bool :=
  match v with JBool false => true | _ => false end.

Definition is_dict (v : json) : bool :=
  match v with JDict _ => true | _ => false end.

Definition is_list (v : json) : bool :=
  match v with JList _ => true | _ => false end.

(** [isinstance(v, int)]: [bool] is a subclass of [int]. *)
Definition is_int (v : json) : bool :=
  match v with JInt _ | JBool _ => true | _ => false end.

(** ** Numbers: [int], [bool] and [float] compare by value *)

Definition int_value (v : json) : option Z :=
  match v with
  | JInt z => Some z
  | JBool b => Some (if b then 1 else 0)
  | _ => None
  end.

(** The exact order between a float and an integer ([None]: NaN). *)
Definition float_compare_Z (f : spec_float) (z : Z) : option comparison :=
  match f with
  | S754_nan => None
  | S754_zero _ => Some (0 ?= z)
  | S754_infinity s => Some (if s then Lt else Gt)
  | S754_finite s m e =>
      let n := if s then Z.neg m else Z.pos m in
      Some (if 0 <=? e then (n * 2 ^ e ?= z) else (n ?= z * 2 ^ (- e)))
  end.

Definition is_nan (v : json) : bool :=
  match v with JFloat S754_nan => true | _ => false end.

(** [a == b] between hashable values *)
Definition py_eq (a b : json) : bool :=
  match a, b with
  | JNull, JNull => true
  | JStr s, JStr t => String.eqb s t
  | JFloat f, JFloat g =>
      match SFcompare f g with Some Eq => true | _ => false end
  | JFloat f, _ =>
      match int_value b with
      | Some z => match float_compare_Z f z with Some Eq => true | _ => false end
      | None => false
      end
  | _, JFloat g =>
      match int_value a with
      | Some z => match float_compare_Z g z with Some Eq => true | _ => false end
      | None => false
      end
  | _, _ =>
      match int_value a, int_value b with
      | Some x, Some y => x =? y
      | _, _ => false
      end
  end.

(** Key lookup in a dict: identity first, then [==].  The decoder hands out
    one shared NaN object, so a NaN key finds itself although NaN != NaN. *)
Definition key_eqb (a b : json) : bool :=
  (is_nan a && is_nan b) || py_eq a b.

Definition hashable (v : json) : bool :=
  match v with JList _ | JDict _ => false | _ => true end.

(** ** Exceptions *)

(** The text of an exception, kept as the format string's arguments. *)
Inductive message : Type :=
| MsgText (s : string)
| MsgStatus (status : Z)                  (* requests: "<status> ... Error: ... for url: ..." *)
| MsgHttp (status : Z) (data : json)      (* f"HTTP {resp.status}: {data}" *)
| MsgApi (detail : json)                  (* f"API error: {detail}" *)
| MsgUnexpectedResponse (data : json)     (* f"Unexpected response: {data}" *)
| MsgUnexpectedError (m : message)        (* f"Unexpected error: {e}" *)
| MsgDevicesInfo (detail : json)          (* f"/devices/info error: {detail}" *)
| MsgExtended (typ : string) (detail : json).
                                          (* f"/device/info/extended error ({typ}): {detail}" *)

(** Every class below derives from [Exception]. *)
Inductive exn_class : Type :=
| SweTrackApiError
| UpdateFailed
| RuntimeError
| AttributeError
| TypeError
| ValueError
| JSONDecodeError
| HTTPError
| TransportError.   (* connection failure, timeout, ... raised by the HTTP library *)

Inductive exn : Type := Exn (c : exn_class) (m : message).

(** [str(e)] *)
Definition str (e : exn) : message := let 'Exn _ m := e in m.

Definition class_of (e : exn) : exn_class := let 'Exn c _ := e in c.

Inductive result (A : Type) : Type :=
| Ok (a : A)
| Raise (e : exn).
Arguments Ok {A} a.
Arguments Raise {A} e.

Definition is_raise {A} (r : result A) : bool :=
  match r with Raise _ => true | Ok _ => false end.

Definition no_attribute_get (v : json) : exn :=
  Exn AttributeError
      (MsgText ("'" ++ type_name v ++ "' object has no attribute 'get'")%string).

(** [v.get(k)] on an arbitrary value: only a dict has the method. *)
Definition py_get (v : json) (k : string) : result json :=
  match v with
  | JDict d => Ok (get d k)
  | _ => Raise (no_attribute_get v)
  end.

Definition py_get_default (v : json) (k : string) (default : json) : result json :=
  match v with
  | JDict d => Ok (get_default d k default)
  | _ => Raise (no_attribute_get v)
  end.

Definition not_supported (op : string) (a b : json) : exn :=
  Exn TypeError
      (MsgText ("'" ++ op ++ "' not supported between instances of '"
                ++ type_name a ++ "' and '" ++ type_name b ++ "'")%string).

(** [a >= b] where [b] is an [int] (or [bool]) of value [t] *)
Definition py_ge_int (a b : json) (t : Z) : result bool :=
  match a with
  | JInt z => Ok (t <=? z)
  | JBool c => Ok (t <=? (if c then 1 else 0))
  | JFloat f =>
      Ok (match float_compare_Z f t with
          | Some Eq | Some Gt => true
          | _ => false
          end)
  | _ => Raise (not_supported ">=" a b)
  end.

(** [l[:n]] *)
Definition slice_to {A} (n : Z) (l : list A) : list A :=
  if 0 <=? n then firstn (Z.to_nat n) l
  else firstn (Z.to_nat (Z.of_nat (List.length l) + n)) l.

(** [d[k] = v] on a dict with keys of any hashable type: an equal key keeps
    its place and its first spelling, a new key goes last. *)
Fixpoint setitem {V} (k : json) (v : V) (d : list (json * V)) : list (json * V) :=
  match d with
  | [] => [(k, v)]
  | (k', v') :: d' =>
      if key_eqb k' k then (k', v) :: d' else (k', v') :: setitem k v d'
  end.

Definition py_setitem {V} (k : json) (v : V) (d : list (json * V))
  : result (list (json * V)) :=
  if hashable k then Ok (setitem k v d)
  else Raise (Exn TypeError (MsgText ("unhashable type: '" ++ type_name k ++ "'")%string)).

(** [d[k] = v] on a dict with [str] keys *)
Fixpoint set_str {V} (k : string) (v : V) (d : list (string * V)) : list (string * V) :=
  match d with
  | [] => [(k, v)]
  | (k', v') :: d' =>
      if String.eqb k' k then (k', v) :: d' else (k', v') :: set_str k v d'
  end.

Definition rbind {A B} (r : result A) (k : A -> result B) : result B :=
  match r with Ok a => k a | Raise e => Raise e end.

End Py.
Export Py.

Notation "'let?' x ':=' r 'in' k" := (rbind r (fun x => k))
  (at level 10, x name, r at level 100, k at level 200).

(* ===================================================================== *)
(** * The HTTP collaborator *)
(* ===================================================================== *)

Module Http.

Record request : Type := mkRequest {
  req_method : string;
  req_path : string;
  req_json : option json
}.

(** What one HTTP exchange gives the client: the library raises, or a
    response arrives with a status and a body that decodes as JSON or not. *)
Inductive http_outcome : Type :=
| HttpRaises (e : exn)
| HttpResponse (status : Z) (body : option json).

(** The server is any function from the requests received so far (the newest
    last) to the outcome of the newest one; [log] is the exchanges done. *)
Record world : Type := mkWorld {
  responder : list request -> http_outcome;
  log : list (request * http_outcome)
}.

Definition IO (A : Type) : Type := world -> result A * world.

Definition ret {A} (a : A) : IO A := fun w => (Ok a, w).

Definition raise {A} (e : exn) : IO A := fun w => (Raise e, w).

Definition bind {A B} (m : IO A) (k : A -> IO B) : IO B :=
  fun w => match m w with
           | (Ok a, w') => k a w'
           | (Raise e, w') => (Raise e, w')
           end.

Definition lift {A} (r : result A) : IO A := fun w => (r, w).

Definition exchange (req : request) (w : world) : http_outcome * world :=
  let o := responder w (map fst (log w) ++ [req]) in
  (o, {| responder := responder w; log := log w ++ [(req, o)] |}).

End Http.
Export Http.

Notation "x <- m ;; k" := (bind m (fun x => k))
  (at level 200, m at level 100, k at level 200, right associativity).

(* ===================================================================== *)
(** * custom_components/swetrack/api.py *)
(* ===================================================================== *)

Module Api.

(** The body of [_request] once the exchange is over: decode, then the three
    checks in the order of the source. *)
Definition _request_result (o : http_outcome) : result pydict :=
  match o with
  | HttpRaises e => Raise e
  | HttpResponse status body =>
      match body with
      | None => Raise (Exn JSONDecodeError (MsgText "Expecting value"))
      | Some data =>
          if status >=? 400 then
            Raise (Exn SweTrackApiError (MsgHttp status data))
          else
            match data with
            | JDict d =>
                if is_False (get d "success") then
                  Raise (Exn SweTrackApiError (MsgApi (py_or (get d "error") data)))
                else Ok d
            | _ => Raise (Exn SweTrackApiError (MsgUnexpectedResponse data))
            end
      end
  end.

Definition _request (method path : string) (json_data : option json) : IO pydict :=
  fun w =>
    let (o, w') := exchange (mkRequest method path json_data) w in
    (_request_result o, w').

Definition async_get_devices : IO pydict :=
  _request "GET" "/devices/info" None.

Definition async_get_account_info : IO pydict :=
  _request "GET" "/account/info" None.

Definition async_get_extended (device_id : json) (typ : string) (page pagesize : Z)
  : IO pydict :=
  let body := JDict [("deviceid", device_id); ("type", JStr typ);
                     ("page", JInt page); ("pagesize", JInt pagesize)] in
  _request "POST" "/device/info/extended" (Some body).

End Api.

(* ===================================================================== *)
(** * custom_components/swetrack/coordinator.py *)
(* ===================================================================== *)

Module Coordinator.
Import Api.

Definition _extract_extended_rows (payload : pydict) (typ : string) : list json :=
  match py_or (get payload "data") (JDict []) with
  | JDict data =>
      let rows :=
        if String.eqb typ "position" then get_default data "positions" (JList [])
        else if String.eqb typ "voltage" then get_default data "voltage" (JList [])
        else py_or (py_or (get data typ) (get data (typ ++ "s")%string)) (JList [])
      in
      match rows with JList l => l | _ => [] end
  | _ => []
  end.

(** The value [_async_update_data] returns. *)
Record snapshot : Type := mkSnapshot {
  devices_payload : pydict;
  devices : list json;
  extended : list (json * pydict)
}.

(** [if rows: ext[name] = rows[0]] *)
Definition set_latest (name : string) (rows : list json) (ext : pydict) : pydict :=
  match rows with
  | [] => ext
  | r :: _ => set_str name r ext
  end.

(** The [for d in devices] loop, [extended_by_device] threaded through. *)
Fixpoint extend_devices (ds : list json) (extended_by_device : list (json * pydict))
  : IO (list (json * pydict)) :=
  match ds with
  | [] => ret extended_by_device
  | d :: ds' =>
      device_id <- lift (py_get d "id") ;;
      if negb (truthy device_id) then extend_devices ds' extended_by_device
      else
        pos_payload <- async_get_extended device_id "position" 1 1 ;;
        let pos_rows := _extract_extended_rows pos_payload "position" in
        let ext := set_latest "position_latest" pos_rows [] in
        volt_payload <- async_get_extended device_id "voltage" 1 1 ;;
        let volt_rows := _extract_extended_rows volt_payload "voltage" in
        let ext := set_latest "voltage_latest" volt_rows ext in
        extended_by_device <- lift (py_setitem device_id ext extended_by_device) ;;
        extend_devices ds' extended_by_device
  end.

(** The [try] block of [_async_update_data]. *)
Definition update_body (fetch_extended : bool) : IO snapshot :=
  devices_payload <- async_get_devices ;;
  devices <- lift (py_get (py_or (get devices_payload "data") (JDict [])) "devices") ;;
  let devices := match py_or devices (JList []) with JList l => l | _ => [] end in
  extended_by_device <-
    (if fetch_extended then extend_devices devices [] else ret []) ;;
  ret {| devices_payload := devices_payload;
         devices := devices;
         extended := extended_by_device |}.

(** The two [except] clauses. *)
Definition _async_update_data (fetch_extended : bool) : IO snapshot :=
  fun w =>
    match update_body fetch_extended w with
    | (Ok snap, w') => (Ok snap, w')
    | (Raise (Exn SweTrackApiError m), w') => (Raise (Exn UpdateFailed m), w')
    | (Raise (Exn _ m), w') => (Raise (Exn UpdateFailed (MsgUnexpectedError m)), w')
    end.

End Coordinator.

(* ===================================================================== *)
(** * swetrack_extended.py *)
(* ===================================================================== *)

Module Cli.

Definition DEVICES_INFO_PATH : string := "/devices/info".
Definition DEVICE_EXTENDED_PATH : string := "/device/info/extended".

(** [r.raise_for_status(); return r.json()] *)
Definition response_json (o : http_outcome) : result json :=
  match o with
  | HttpRaises e => Raise e
  | HttpResponse status body =>
      if (400 <=? status) && (status <? 600) then
        Raise (Exn HTTPError (MsgStatus status))
      else
        match body with
        | None => Raise (Exn JSONDecodeError (MsgText "Expecting value"))
        | Some v => Ok v
        end
  end.

(** [base_url], [token] and [timeout] only shape the URL, the headers and the
    transport; they are left to the HTTP collaborator. *)
Definition api_get (path : string) : IO json :=
  fun w =>
    let (o, w') := exchange (mkRequest "GET" path None) w in
    (response_json o, w').

Definition api_post (path : string) (body : json) : IO json :=
  fun w =>
    let (o, w') := exchange (mkRequest "POST" path (Some body)) w in
    (response_json o, w').

Definition get_devices : IO json :=
  payload <- api_get DEVICES_INFO_PATH ;;
  lift (let? success := py_get payload "success" in
        if negb (truthy success) then
          let? error := py_get payload "error" in
          Raise (Exn RuntimeError (MsgDevicesInfo (py_or error payload)))
        else
          let? data := py_get_default payload "data" (JDict []) in
          let? devices := py_get_default data "devices" (JList []) in
          Ok (py_or devices (JList []))).

(** ** [fetch_extended_all_pages] *)

Record fetch_args : Type := mkArgs {
  device_id : json;
  typ : string;
  start_iso : option string;
  stop_iso : option string;
  pagesize : Z;
  max_rows : Z
}.

(** [if value: body[key] = value] for an [Optional[str]] *)
Definition time_filter (key : string) (value : option string) : pydict :=
  match value with
  | Some s => if String.eqb s "" then [] else [(key, JStr s)]
  | None => []
  end.

Definition request_body (a : fetch_args) (page : Z) : json :=
  JDict ([("deviceid", device_id a); ("type", JStr (typ a));
          ("page", JInt page); ("pagesize", JInt (pagesize a))]
         ++ time_filter "startdatetime" (start_iso a)
         ++ time_filter "stopdatetime" (stop_iso a)).

(** Lines 128-146: from [payload.get("data", {})] to the page's row list. *)
Definition page_rows (typ : string) (payload_data : json) : list json :=
  let data := py_or payload_data (JDict []) in
  let rows :=
    match data with
    | JDict data =>
        if String.eqb typ "position" then get_default data "positions" (JList [])
        else if String.eqb typ "voltage" then get_default data "voltage" (JList [])
        else py_or (py_or (get data typ) (get data (typ ++ "s")%string)) (JList [])
    | _ => JList []
    end in
  match rows with
  | JNull => []
  | JList l => l
  | v => [v]
  end.

(** Line 152: [payload.get("pagination") or
    payload.get("data", {}).get("pagination") or {}], left to right. *)
Definition page_pagination (payload : json) : result json :=
  let? outer := py_get payload "pagination" in
  if truthy outer then Ok outer
  else
    let? data := py_get_default payload "data" (JDict []) in
    let? inner := py_get data "pagination" in
    Ok (py_or inner (JDict [])).

(** The function returns a tuple of two or of three values. *)
Inductive fetch_result : Type :=
| Pair (rows : list json) (meta : json)
| Triple (rows : list json) (meta : json) (raw_pages : list json).

Definition result_rows (r : fetch_result) : list json :=
  match r with Pair rows _ => rows | Triple rows _ _ => rows end.

Record loop_state : Type := mkLoop {
  all_rows : list json;
  page : Z;
  last_meta : json;
  raw_pages : list json
}.

Definition initial : loop_state :=
  {| all_rows := []; page := 1; last_meta := JDict []; raw_pages := [] |}.

Inductive step : Type :=
| Return (r : fetch_result)
| Continue (st : loop_state).

(** One turn of [while True] after [api_post] has returned [payload]. *)
Definition loop_body (a : fetch_args) (st : loop_state) (payload : json) : result step :=
  let raw_pages := raw_pages st ++ [payload] in
  let? success := py_get payload "success" in
  if negb (truthy success) then
    let? error := py_get payload "error" in
    Raise (Exn RuntimeError (MsgExtended (typ a) (py_or error payload)))
  else
    let? data := py_get_default payload "data" (JDict []) in
    let rows := page_rows (typ a) data in
    let all_rows := all_rows st ++ rows in
    let? meta := py_get_default payload "meta" (JDict []) in
    let last_meta := py_or meta (JDict []) in
    let? pagination := page_pagination payload in
    let? total_pages := py_get pagination "total_pages" in
    let? cur_page := py_get_default pagination "page" (JInt (page st)) in
    if max_rows a <=? Z.of_nat (List.length all_rows) then
      Ok (Return (Pair (slice_to (max_rows a) all_rows) last_meta))
    else
      match rows with
      | [] => Ok (Return (Pair all_rows last_meta))
      | _ :: _ =>
          let? stop :=
            match int_value total_pages with
            | Some t => py_ge_int cur_page total_pages t
            | None => Ok false
            end in
          if stop then Ok (Return (Triple all_rows last_meta raw_pages))
          else Ok (Continue {| all_rows := all_rows; page := page st + 1;
                               last_meta := last_meta; raw_pages := raw_pages |})
      end.

(** A run that may go on for ever: [None] when [fuel] turns do not end it. *)
Definition IOF (A : Type) : Type := world -> option (result A * world).

Definition retF {A} (a : A) : IOF A := fun w => Some (Ok a, w).

Definition liftF {A} (r : result A) : IOF A := fun w => Some (r, w).

Definition bindF {A B} (m : IOF A) (k : A -> IOF B) : IOF B :=
  fun w => match m w with
           | None => None
           | Some (Ok a, w') => k a w'
           | Some (Raise e, w') => Some (Raise e, w')
           end.

(** [try: m  except Exception as e: h e] *)
Definition try_except {A} (m : IOF A) (h : exn -> IOF A) : IOF A :=
  fun w => match m w with
           | Some (Raise e, w') => h e w'
           | other => other
           end.

Fixpoint fetch_loop (a : fetch_args) (fuel : nat) (st : loop_state) : IOF fetch_result :=
  fun w =>
    match fuel with
    | O => None
    | S fuel' =>
        match api_post DEVICE_EXTENDED_PATH (request_body a (page st)) w with
        | (Raise e, w') => Some (Raise e, w')
        | (Ok payload, w') =>
            match loop_body a st payload with
            | Raise e => Some (Raise e, w')
            | Ok (Return r) => Some (Ok r, w')
            | Ok (Continue st') => fetch_loop a fuel' st' w'
            end
        end
    end.

Definition fetch_extended_all_pages (a : fetch_args) (fuel : nat) : IOF fetch_result :=
  fetch_loop a fuel initial.

(** ** [main], from the device list on *)

(** Lines 218-223. *)
Definition main_devices : IO json :=
  devices_payload <- api_get DEVICES_INFO_PATH ;;
  lift (let? success := py_get devices_payload "success" in
        if negb (truthy success) then
          Raise (Exn RuntimeError (MsgDevicesInfo devices_payload))
        else
          let? data := py_get_default devices_payload "data" (JDict []) in
          let? devices := py_get_default data "devices" (JList []) in
          Ok (py_or devices (JList []))).

(** One value of [dev_out["extended"]]. *)
Inductive entry : Type :=
| ErrorEntry (error : message)                (* {"error": str(e), "rows": []} *)
| RowsEntry (rows : list json) (meta : json). (* {"rows": rows, "meta": meta} *)

Record dev_out : Type := mkOut {
  out_id : json;
  out_name : json;
  out_model : json;
  out_status : json;
  out_extended : list (string * entry)
}.

(** One item of [raw_api["device_info_extended"]]. *)
Record raw_item : Type := mkRaw {
  raw_device_id : json;
  raw_device_name : json;
  raw_type : string;
  raw_pages_of : list json
}.

Record options : Type := mkOptions {
  opt_start : option string;
  opt_stop : option string;
  opt_pagesize : Z;
  opt_max_rows : Z
}.

(** [rows, meta, raw_pages = <tuple>] *)
Definition unpack3 (t : fetch_result) : result (list json * json * list json) :=
  match t with
  | Triple rows meta raw_pages => Ok (rows, meta, raw_pages)
  | Pair _ _ =>
      Raise (Exn ValueError (MsgText "not enough values to unpack (expected 3, got 2)"))
  end.

Definition set_entry (typ : string) (e : entry) (out : dev_out) : dev_out :=
  {| out_id := out_id out; out_name := out_name out; out_model := out_model out;
     out_status := out_status out;
     out_extended := set_str typ e (out_extended out) |}.

(** ** The terminal *)

(** [k in d] *)
Definition has (k : string) (d : pydict) : bool :=
  match assoc k d with Some _ => true | None => false end.

(** The loop of [_pick_last_timestamp]: the first of [keys] that is in the
    row with a truthy value. *)
Fixpoint first_truthy (d : pydict) (keys : list string) : option json :=
  match keys with
  | [] => None
  | k :: keys' =>
      match assoc k d with
      | Some v => if truthy v then Some v else first_truthy d keys'
      | None => first_truthy d keys'
      end
  end.

(** [Some v] stands for [str(v)], [None] for the dash. *)
Definition _pick_last_timestamp (row : json) : option json :=
  match row with
  | JDict d =>
      first_truthy d ["positiontime"; "servertime"; "datetime"; "time"; "timestamp"]
  | _ => None
  end.

(** Lines 287-292: the value of the first of [keys] that is in the row, or
    [None]. *)
Fixpoint first_present (d : pydict) (keys : list string) : json :=
  match keys with
  | [] => JNull
  | k :: keys' =>
      match assoc k d with
      | Some v => v
      | None => first_present d keys'
      end
  end.

(** What [main] prints, kept as the arguments of the format string; a value
    stands for its text, through [_fmt] or [str]. *)
Inductive line : Type :=
| DeviceLine (name model dev_id status : json)
      (* f"\n== {name} ({model}) id={dev_id} status={status} ==" *)
| ErrorLine (typ : string) (e : message)
      (* f"  {typ:8}: ERROR: {e}" *)
| PositionLine (typ : string) (n : nat) (ts : option json) (lat lon spd : json)
      (* f"  {typ:8}: {len(rows):4} rows | last={ts} | lat=... lon=... speed=..." *)
| ValueLine (typ : string) (n : nat) (ts : option json) (val : json)
      (* f"  {typ:8}: {len(rows):4} rows | last={ts} | value={_fmt(val)}" *)
| NoRowsLine (typ : string).
      (* f"  {typ:8}:    0 rows (no data in window or unsupported on this device)" *)

(** Lines 272-295: the summary of one fetched series. *)
Definition summary_line (typ : string) (rows : list json) : line :=
  match rows with
  | [] => NoRowsLine typ
  | _ :: _ =>
      let last := List.last rows JNull in
      let ts := _pick_last_timestamp last in
      match last with
      | JDict d =>
          if has "latitude" d || has "longitude" d then
            let lat := get d "latitude" in
            let lon := get d "longitude" in
            let spd := get_default d "speed" (get d "current_speed") in
            let spd := match spd with
                       | JDict sd =>
                           get_default sd "kmh" (get_default sd "mph" (get sd "knot"))
                       | _ => spd
                       end in
            PositionLine typ (List.length rows) ts lat lon spd
          else
            ValueLine typ (List.length rows) ts
              (first_present d ["value"; "voltage"; "temp"; "temperature"; "humidity"])
      | _ => ValueLine typ (List.length rows) ts JNull
      end
  end.

(** [print] can raise, on a text the encoding of the terminal does not take
    or on a closed pipe: the terminal is any function from the lines
    written so far (the newest last) to the exception of the newest one, if
    any; [printed] is what was written. *)
Record terminal : Type := mkTerminal {
  writer : list line -> option exn;
  printed : list line
}.


(** [main] talks to the server and to the terminal. *)
Record session : Type := mkSession {
  net : world;
  tty : terminal
}.

Definition MAIN (A : Type) : Type := session -> option (result A * session).

Definition retM {A} (a : A) : MAIN A := fun s => Some (Ok a, s).

Definition liftM {A} (r : result A) : MAIN A := fun s => Some (r, s).

Definition bindM {A B} (m : MAIN A) (k : A -> MAIN B) : MAIN B :=
  fun s => match m s with
           | None => None
           | Some (Ok a, s') => k a s'
           | Some (Raise e, s') => Some (Raise e, s')
           end.

(** The session once the server has moved on to [w]. *)
Definition with_net (w : world) (s : session) : session :=
  {| net := w; tty := tty s |}.

(** The session once [l] has been written. *)
Definition wrote (l : line) (s : session) : session :=
  {| net := net s;
     tty := {| writer := writer (tty s); printed := printed (tty s) ++ [l] |} |}.

(** A computation that only talks to the server. *)
Definition on_net {A} (m : IOF A) : MAIN A :=
  fun s => match m (net s) with
           | None => None
           | Some (r, w') => Some (r, with_net w' s)
           end.

Definition print (l : line) : MAIN unit :=
  fun s =>
    match writer (tty s) (printed (tty s) ++ [l]) with
    | Some e => Some (Raise e, s)
    | None => Some (Ok tt, wrote l s)
    end.

(** The body of [for typ in types]: the [try] block holds the fetch and the
    unpacking; the handler prints, then records, then [continue]s; on the
    other path the entry and the raw pages are recorded, then the summary
    is printed. *)
Definition main_type (o : options) (fuel : nat) (typ : string)
    (acc : dev_out * list raw_item) : MAIN (dev_out * list raw_item) :=
  let (out, raw) := acc in
  let a := {| device_id := out_id out; typ := typ;
              start_iso := opt_start o; stop_iso := opt_stop o;
              pagesize := opt_pagesize o; max_rows := opt_max_rows o |} in
  bindM
    (on_net
       (try_except
          (bindF (fetch_extended_all_pages a fuel) (fun t =>
           bindF (liftF (unpack3 t)) (fun x => retF (inr x))))
          (fun e => retF (inl e))))
    (fun caught =>
       match caught with
       | inl e =>
           bindM (print (ErrorLine typ (str e))) (fun _ =>
           retM (set_entry typ (ErrorEntry (str e)) out, raw))
       | inr (rows, meta, raw_pages) =>
           let out' := set_entry typ (RowsEntry rows meta) out in
           let raw' :=
             raw ++ [{| raw_device_id := out_id out; raw_device_name := out_name out;
                        raw_type := typ; raw_pages_of := raw_pages |}] in
           bindM (print (summary_line typ rows)) (fun _ => retM (out', raw'))
       end).

Fixpoint main_types (o : options) (fuel : nat) (types : list string)
    (acc : dev_out * list raw_item) : MAIN (dev_out * list raw_item) :=
  match types with
  | [] => retM acc
  | typ :: types' =>
      bindM (main_type o fuel typ acc) (fun acc' => main_types o fuel types' acc')
  end.

(** Lines 232-244: the fields read from one device. *)
Definition device_header (d : json) : result dev_out :=
  let? dev_id := py_get d "id" in
  let? name := py_get_default d "name" (JStr "-") in
  let? model0 := py_get d "model" in
  let? model := py_get_default (py_or model0 (JDict [])) "model" (JStr "-") in
  let? status := py_get_default d "status" (JStr "-") in
  Ok {| out_id := dev_id; out_name := name; out_model := model;
        out_status := status; out_extended := [] |}.

Definition header_line (out : dev_out) : line :=
  DeviceLine (out_name out) (out_model out) (out_id out) (out_status out).

(** [for d in devices], over the values the iteration yields;
    [combined["devices"]] and [raw_api["device_info_extended"]] threaded. *)
Fixpoint main_loop (o : options) (fuel : nat) (types : list string) (ds : list json)
    (acc : list dev_out * list raw_item) : MAIN (list dev_out * list raw_item) :=
  match ds with
  | [] => retM acc
  | d :: ds' =>
      bindM (liftM (device_header d)) (fun out =>
      bindM (print (header_line out)) (fun _ =>
      bindM (main_types o fuel types (out, snd acc)) (fun r =>
      main_loop o fuel types ds' (fst acc ++ [fst r], snd r))))
  end.

End Cli.

(* ===================================================================== *)
(** * Vocabulary of the statements *)
(* ===================================================================== *)

Module Trace.

(** An exchange on which [_request] raises, whatever the reason: the
    transport, the status, the envelope or the shape of the body. *)
Definition failed (c : request * http_outcome) : bool :=
  is_raise (Api._request_result (snd c)).

(** In the exchanges [new] of a run that ended with [r], a failed request is
    the last one made and the run raised. *)
Definition clean {A} (r : result A) (new : list (request * http_outcome)) : Prop :=
  forall pre c post,
    new = pre ++ c :: post -> failed c = true -> post = [] /\ is_raise r = true.

(** [m] talks to one and the same server and every run of it is [clean]. *)
Definition traced {A} (m : IO A) : Prop :=
  forall w r w',
    m w = (r, w') ->
    responder w' = responder w /\
    exists new, log w' = log w ++ new /\ clean r new.

(** The paginator is at the head of its loop in state [st] and world [w],
    having started in world [w0]. *)
Inductive reaches (a : Cli.fetch_args) (w0 : world) : Cli.loop_state -> world -> Prop :=
| reaches_start : reaches a w0 Cli.initial w0
| reaches_next : forall st w payload w' st',
    reaches a w0 st w ->
    Cli.api_post Cli.DEVICE_EXTENDED_PATH (Cli.request_body a (Cli.page st)) w
      = (Ok payload, w') ->
    Cli.loop_body a st payload = Ok (Cli.Continue st') ->
    reaches a w0 st' w'.

End Trace.

(** ** Servers used in the examples *)

Module Fixture.

Definition refused : http_outcome :=
  HttpRaises (Exn TransportError (MsgText "connection refused")).

Definition ok (body : json) : http_outcome := HttpResponse 200 (Some body).

(** The server that answers the n-th request with the n-th outcome of [os]. *)
Definition script (os : list http_outcome) : world :=
  {| responder := fun h => nth (List.length h - 1) os refused; log := [] |}.

Definition device (id : string) : json :=
  JDict [("id", JStr id); ("name", JStr "Car")].

Definition device_list (ds : list json) : json :=
  JDict [("success", JBool true); ("data", JDict [("devices", JList ds)])].

Definition position_row : json :=
  JDict [("latitude", JInt 59); ("longitude", JInt 18);
         ("positiontime", JStr "2026-02-04T10:00:00Z")].

Definition voltage_row : json :=
  JDict [("value", JInt 12); ("servertime", JStr "2026-02-04T10:00:00Z")].

Definition positions (rows : list json) : json :=
  JDict [("success", JBool true); ("data", JDict [("positions", JList rows)])].

Definition voltages (rows : list json) : json :=
  JDict [("success", JBool true); ("data", JDict [("voltage", JList rows)])].

Definition sample (n : Z) : json := JDict [("value", JInt n)].

(** A page with a pagination descriptor. *)
Definition paged (rows : list json) (pagination : pydict) : json :=
  JDict [("success", JBool true); ("data", JDict [("positions", JList rows)]);
         ("pagination", JDict pagination)].

Definition null_data : json :=
  JDict [("success", JBool true); ("data", JNull)].

Definition rate_limited : json :=
  JDict [("success", JBool false); ("error", JStr "rate limited")].

Definition args (typ : string) (max_rows : Z) : Cli.fetch_args :=
  {| Cli.device_id := JStr "d1"; Cli.typ := typ;
     Cli.start_iso := None; Cli.stop_iso := None;
     Cli.pagesize := 200; Cli.max_rows := max_rows |}.

Definition opts : Cli.options :=
  {| Cli.opt_start := None; Cli.opt_stop := None;
     Cli.opt_pagesize := 200; Cli.opt_max_rows := 500 |}.

(** A terminal that takes every line, and one whose encoding does not take
    the text of an error line: its [print] raises a [UnicodeEncodeError],
    which is a [ValueError]. *)
Definition plain_terminal : Cli.terminal :=
  {| Cli.writer := fun _ => None; Cli.printed := [] |}.


Definition at_terminal (t : Cli.terminal) (w : world) : Cli.session :=
  {| Cli.net := w; Cli.tty := t |}.

Definition header (id : string) : Cli.dev_out :=
  {| Cli.out_id := JStr id; Cli.out_name := JStr "Car"; Cli.out_model := JStr "-";
     Cli.out_status := JStr "-"; Cli.out_extended := [] |}.

End Fixture.

(** ** Requests and rows of a whole run *)

Module Cycle.

(** The request of [async_get_devices]. *)
Definition devices_request : request := mkRequest "GET" "/devices/info" None.

(** The request of [async_get_extended(device_id, typ, pagesize=1)]. *)
Definition extended_request (device_id : json) (typ : string) : request :=
  mkRequest "POST" "/device/info/extended"
    (Some (JDict [("deviceid", device_id); ("type", JStr typ);
                  ("page", JInt 1); ("pagesize", JInt 1)])).

(** The requests one turn of [for d in devices] makes when nothing fails. *)
Definition device_requests (d : json) : list request :=
  match py_get d "id" with
  | Ok device_id =>
      if truthy device_id then
        [extended_request device_id "position"; extended_request device_id "voltage"]
      else []
  | Raise _ => []
  end.

(** Some key of the mapping is the key [k] for a dict lookup. *)
Definition has_key {V} (d : list (json * V)) (k : json) : Prop :=
  exists k' v, In (k', v) d /\ key_eqb k' k = true.

(** No two entries of the mapping stand under keys a dict holds for one. *)
Definition distinct_keys {V} (d : list (json * V)) : Prop :=
  ForallOrdPairs (fun k k' => key_eqb k k' = false) (map fst d).

(** Among the exchanges [lg], [_request] returned [payload] for [req]. *)
Definition answered (lg : list (request * http_outcome)) (req : request)
    (payload : pydict) : Prop :=
  exists o, In (req, o) lg /\ Api._request_result o = Ok payload.

(** The bundle [ext] under key [k] holds, under [name], the first row of the
    answer to the request of type [typ] for a device whose id is [k]. *)
Definition latest_from (lg : list (request * http_outcome)) (k : json) (ext : pydict)
    (name typ : string) : Prop :=
  forall r, assoc name ext = Some r ->
    exists device_id payload rows,
      key_eqb k device_id = true
      /\ answered lg (extended_request device_id typ) payload
      /\ Coordinator._extract_extended_rows payload typ = r :: rows.

Definition bundle_from (lg : list (request * http_outcome)) (k : json) (ext : pydict)
  : Prop :=
  (map fst ext = [] \/ map fst ext = ["position_latest"]
   \/ map fst ext = ["voltage_latest"]
   \/ map fst ext = ["position_latest"; "voltage_latest"])
  /\ latest_from lg k ext "position_latest" "position"
  /\ latest_from lg k ext "voltage_latest" "voltage".

End Cycle.

Module Paging.

(** The request for page [k] of a fetch. *)
Definition page_request (a : Cli.fetch_args) (k : Z) : request :=
  mkRequest "POST" Cli.DEVICE_EXTENDED_PATH (Some (Cli.request_body a k)).

(** [n] page numbers from [k] on. *)
Fixpoint pages_from (k : Z) (n : nat) : list Z :=
  match n with
  | O => []
  | S n' => k :: pages_from (k + 1) n'
  end.

(** The rows lines 128-146 take from one page. *)
Definition payload_rows (typ : string) (payload : json) : list json :=
  match payload with
  | JDict p => Cli.page_rows typ (get_default p "data" (JDict []))
  | _ => []
  end.

(** [payload.get("meta", {}) or {}] *)
Definition payload_meta (payload : json) : json :=
  match payload with
  | JDict p => py_or (get_default p "meta" (JDict [])) (JDict [])
  | _ => JDict []
  end.

Definition result_meta (r : Cli.fetch_result) : json :=
  match r with Cli.Pair _ meta => meta | Cli.Triple _ meta _ => meta end.

(** The pagination descriptor of the page has an integer [total_pages]. *)
Definition reports_total (payload : json) : Prop :=
  exists pg t, Cli.page_pagination payload = Ok (JDict pg)
               /\ int_value (get pg "total_pages") = Some t.

(** Two items of the output describe one device. *)
Definition same_device (a b : Cli.dev_out) : Prop :=
  Cli.out_id a = Cli.out_id b /\ Cli.out_name a = Cli.out_name b
  /\ Cli.out_model a = Cli.out_model b /\ Cli.out_status a = Cli.out_status b.

(** The arguments [main] passes to the paginator for one (device, type). *)
Definition item_args (o : Cli.options) (out : Cli.dev_out) (typ : string)
    : Cli.fetch_args :=
  {| Cli.device_id := Cli.out_id out; Cli.typ := typ;
     Cli.start_iso := Cli.opt_start o; Cli.stop_iso := Cli.opt_stop o;
     Cli.pagesize := Cli.opt_pagesize o; Cli.max_rows := Cli.opt_max_rows o |}.


End Paging.

(* ===================================================================== *)
(** * custom_components/swetrack/const.py *)
(* ===================================================================== *)

Module Const.

Definition DOMAIN : string := "swetrack".
Definition CONF_TOKEN : string := "token".
Definition CONF_BASE_URL : string := "base_url".
Definition CONF_SCAN_INTERVAL : string := "scan_interval".
Definition CONF_FETCH_EXTENDED : string := "fetch_extended".
Definition DEFAULT_BASE_URL : string := "https://api.cloudappapi.com/publicapi/v1".
Definition DEFAULT_SCAN_INTERVAL : Z := 300.
Definition DEFAULT_FETCH_EXTENDED : bool := true.

End Const.

(* ===================================================================== *)
(** * sensor.py, binary_sensor.py and device_tracker.py *)
(* ===================================================================== *)

Module Entities.
Import Coordinator.

Definition no_attribute (v : json) (name : string) : exn :=
  Exn AttributeError
      (MsgText ("'" ++ type_name v ++ "' object has no attribute '" ++ name ++ "'")%string).

(** [a == b] between any two decoded values.  Inside a list or a dict the
    items are compared by identity first, which only matters for the
    decoder's one NaN object. *)
Fixpoint py_equal (a b : json) {struct a} : bool :=
  match a, b with
  | JList la, JList lb =>
      (fix items (la lb : list json) {struct la} : bool :=
         match la, lb with
         | [], [] => true
         | x :: la', y :: lb' =>
             ((is_nan x && is_nan y) || py_equal x y) && items la' lb'
         | _, _ => false
         end) la lb
  | JDict da, JDict db =>
      Nat.eqb (List.length da) (List.length db)
      && (fix items (da : list (string * json)) : bool :=
            match da with
            | [] => true
            | (k, v) :: da' =>
                match assoc k db with
                | Some v' => (is_nan v && is_nan v') || py_equal v v'
                | None => false
                end && items da'
            end) da
  | JList _, _ | JDict _, _ | _, JList _ | _, JDict _ => false
  | _, _ => py_eq a b
  end.

(** [d.get(k, default)] on a dict with keys of any hashable type *)
Fixpoint lookup {V} (k : json) (d : list (json * V)) : option V :=
  match d with
  | [] => None
  | (k', v) :: d' => if key_eqb k' k then Some v else lookup k d'
  end.

Definition dict_get {V} (d : list (json * V)) (k : json) (default : V) : result V :=
  if hashable k then
    Ok (match lookup k d with Some v => v | None => default end)
  else Raise (Exn TypeError (MsgText ("unhashable type: '" ++ type_name k ++ "'")%string)).

(** [v[k]] with a [str] key, as the set-up code reads the id of a device. *)
Inductive subscript_error : Type :=
| KeyError (k : string)
| NotSubscriptable (v : json).    (* TypeError *)

Definition subscript (v : json) (k : string) : subscript_error + json :=
  match v with
  | JDict d =>
      match assoc k d with
      | Some x => inr x
      | None => inl (KeyError k)
      end
  | _ => inl (NotSubscriptable v)
  end.

(** [s.lower()] on the letters A to Z; other bytes are left as they are. *)
Definition lower_ascii (c : Ascii.ascii) : Ascii.ascii :=
  let n := Ascii.nat_of_ascii c in
  if (Nat.leb 65 n && Nat.leb n 90)%bool then Ascii.ascii_of_nat (n + 32) else c.

Fixpoint lower (s : string) : string :=
  match s with
  | EmptyString => EmptyString
  | String c s' => String (lower_ascii c) (lower s')
  end.

(** [v.lower() == "online"]: only a [str] has the method.  No letter outside
    A to Z lowers to a letter of the word, so the byte-wise [lower] decides
    the comparison as Python does. *)
Definition lower_is_online (v : json) : result bool :=
  match v with
  | JStr s => Ok (String.eqb (lower s) "online")
  | _ => Raise (no_attribute v "lower")
  end.

(** [_device], the same in the three classes. *)
Fixpoint find_device (ds : list json) (device_id : json) : result json :=
  match ds with
  | [] => Ok (JDict [])
  | d :: ds' =>
      let? id := py_get d "id" in
      if py_equal id device_id then Ok d else find_device ds' device_id
  end.

Definition _device (data : snapshot) (device_id : json) : result json :=
  find_device (devices data) device_id.

(** [(self.coordinator.data.get("extended") or {}).get(self.device_id, {})] *)
Definition bundle_of (data : snapshot) (device_id : json) : result pydict :=
  dict_get (extended data) device_id [].

(** ** sensor.py *)

(** (key, name, device class, unit), the last two by the name of the
    library constant. *)
Definition SENSORS : list (string * string * string * string) :=
  [("battery_internal", "Battery", "SensorDeviceClass.BATTERY", "PERCENTAGE");
   ("external_voltage", "External voltage", "SensorDeviceClass.VOLTAGE",
    "UnitOfElectricPotential.VOLT");
   ("speed_current", "Speed", "SensorDeviceClass.SPEED", "UnitOfSpeed.KILOMETERS_PER_HOUR");
   ("speed_limit", "Speed limit", "SensorDeviceClass.SPEED",
    "UnitOfSpeed.KILOMETERS_PER_HOUR")].

Record sensor : Type := mkSensor {
  sensor_device_id : json;
  sensor_device_name : json;
  sensor_key : string;
  sensor_name : string;
  sensor_device_class : string;
  sensor_unit : string
}.

(** The two nested loops of [async_setup_entry]. *)
Fixpoint sensor_entities (ds : list json) : subscript_error + list sensor :=
  match ds with
  | [] => inr []
  | dev :: ds' =>
      match subscript dev "id" with
      | inl e => inl e
      | inr id =>
          let name := match dev with
                      | JDict d => py_or (get d "name") id
                      | _ => id
                      end in
          match sensor_entities ds' with
          | inl e => inl e
          | inr rest =>
              inr (map (fun '(key, label, dev_class, unit) =>
                          mkSensor id name key label dev_class unit) SENSORS
                   ++ rest)
          end
      end
  end.

Definition sensor_setup (data : snapshot) : subscript_error + list sensor :=
  sensor_entities (devices data).

Definition is_None (v : json) : bool :=
  match v with JNull => true | _ => false end.

Definition native_value (data : snapshot) (device_id : json) (key : string)
  : result json :=
  let? dev := _device data device_id in
  let? battery := py_get dev "battery" in
  let batt := py_or battery (JDict []) in
  let? speed := py_get dev "speed" in
  let spd := py_or speed (JDict []) in
  if String.eqb key "battery_internal" then py_get batt "internal"
  else if String.eqb key "external_voltage" then
    let? ext := bundle_of data device_id in
    let? v_latest := py_get (py_or (get ext "voltage_latest") (JDict [])) "value" in
    if is_None v_latest then py_get batt "external_voltage" else Ok v_latest
  else if String.eqb key "speed_current" then
    let? current := py_get spd "current_speed" in
    py_get (py_or current (JDict [])) "value"
  else if String.eqb key "speed_limit" then
    let? limit := py_get spd "speed_limit" in
    py_get (py_or limit (JDict [])) "value"
  else Ok JNull.

Definition sensor_attributes (data : snapshot) (device_id : json) : result pydict :=
  let? dev := _device data device_id in
  let? ext := bundle_of data device_id in
  let v_latest := py_or (get ext "voltage_latest") (JDict []) in
  let? last_update := py_get dev "last_update" in
  let? servertime := py_get v_latest "servertime" in
  Ok [("swetrack_id", device_id); ("last_update", last_update);
      ("voltage_servertime", servertime)].

(** ** binary_sensor.py *)

Definition BINS : list (string * string * string) :=
  [("connectivity", "Connectivity", "BinarySensorDeviceClass.CONNECTIVITY");
   ("external_power", "External power", "BinarySensorDeviceClass.PLUG");
   ("ignition", "Ignition", "None")].

Record binary_sensor : Type := mkBinary {
  binary_device_id : json;
  binary_key : string;
  binary_name : string;
  binary_device_class : string
}.

Fixpoint binary_entities (ds : list json) : subscript_error + list binary_sensor :=
  match ds with
  | [] => inr []
  | dev :: ds' =>
      match subscript dev "id" with
      | inl e => inl e
      | inr id =>
          match binary_entities ds' with
          | inl e => inl e
          | inr rest =>
              inr (map (fun '(key, label, dev_class) => mkBinary id key label dev_class)
                       BINS
                   ++ rest)
          end
      end
  end.

Definition binary_setup (data : snapshot) : subscript_error + list binary_sensor :=
  binary_entities (devices data).

(** [is_on]: a [bool], or [None] for a key that is not in [BINS]. *)
Definition is_on (data : snapshot) (device_id : json) (key : string) : result json :=
  let? dev := _device data device_id in
  if String.eqb key "connectivity" then
    let? status := py_get dev "status" in
    let? online := lower_is_online (py_or status (JStr "")) in
    Ok (JBool online)
  else if String.eqb key "external_power" then
    let? battery := py_get dev "battery" in
    let? supply := py_get (py_or battery (JDict [])) "external_power_supply" in
    Ok (JBool (truthy supply))
  else if String.eqb key "ignition" then
    let? ignition := py_get dev "ignition" in
    let? value := py_get (py_or ignition (JDict [])) "value" in
    Ok (JBool (truthy value))
  else Ok JNull.

(** ** device_tracker.py *)

Record tracker : Type := mkTracker {
  tracker_device_id : json;
  tracker_name : json
}.

Fixpoint tracker_entities (ds : list json) : subscript_error + list tracker :=
  match ds with
  | [] => inr []
  | dev :: ds' =>
      match subscript dev "id" with
      | inl e => inl e
      | inr id =>
          let name := match dev with
                      | JDict d => py_or (get d "name") id
                      | _ => id
                      end in
          match tracker_entities ds' with
          | inl e => inl e
          | inr rest => inr (mkTracker id name :: rest)
          end
      end
  end.

Definition tracker_setup (data : snapshot) : subscript_error + list tracker :=
  tracker_entities (devices data).

Definition position_field (data : snapshot) (device_id : json) (field : string)
  : result json :=
  let? dev := _device data device_id in
  let? info := py_get dev "position_info" in
  py_get (py_or info (JDict [])) field.

Definition latitude (data : snapshot) (device_id : json) : result json :=
  position_field data device_id "latitude".

Definition longitude (data : snapshot) (device_id : json) : result json :=
  position_field data device_id "longitude".

Definition tracker_attributes (data : snapshot) (device_id : json) : result pydict :=
  let? dev := _device data device_id in
  let? info := py_get dev "position_info" in
  let pos := py_or info (JDict []) in
  let? ext := bundle_of data device_id in
  let latest_pos := get ext "position_latest" in
  let? last_update := py_get dev "last_update" in
  let? positiontime := py_get (py_or latest_pos (JDict [])) "positiontime" in
  let? position_time :=
    if truthy positiontime then Ok positiontime else py_get pos "datetime" in
  Ok [("swetrack_id", device_id); ("last_update", last_update);
      ("position_time", position_time)].

End Entities.

(* ===================================================================== *)
(** * custom_components/swetrack/config_flow.py *)
(* ===================================================================== *)

Module Flow.
Import Api.

(** [user_input] as the form's schema delivers it: a token, and a base URL
    or none. *)
Record user_input : Type := mkInput {
  input_token : string;
  input_base_url : option string
}.

Inductive flow_result : Type :=
| ShowForm (errors : list (string * string))  (* async_show_form(step_id="user", ...) *)
| CreateEntry (token base_url : string).      (* async_create_entry(title="SweTrack", ...) *)

Section Steps.

(** [str.strip], and the two calls on the flow itself,
    [await self.async_set_unique_id(str(v))] followed by
    [self._abort_if_unique_id_configured()], which may raise. *)
Variable strip : string -> string.
Variable claim_unique_id : json -> result unit.

(** The [try] block of [async_step_user]. *)
Definition validate (base_url : string) : IO unit :=
  _ <- async_get_devices ;;
  acct <- async_get_account_info ;;
  let acct_data := py_or (get acct "data") (JDict []) in
  id <- lift (py_get acct_data "id") ;;
  email <- lift (py_get acct_data "email") ;;
  let unique := py_or (py_or id email) (JStr base_url) in
  lift (claim_unique_id unique).

Definition async_step_user (input : option user_input) : world -> flow_result * world :=
  fun w =>
    match input with
    | None => (ShowForm [], w)
    | Some u =>
        let token := strip (input_token u) in
        let base_url :=
          strip (match input_base_url u with
                 | Some b => b
                 | None => Const.DEFAULT_BASE_URL
                 end) in
        match validate base_url w with
        | (Ok _, w') => (CreateEntry token base_url, w')
        | (Raise (Exn SweTrackApiError _), w') => (ShowForm [("base", "auth")], w')
        | (Raise _, w') => (ShowForm [("base", "unknown")], w')
        end
    end.

End Steps.

Definition account_request : request := mkRequest "GET" "/account/info" None.

End Flow.

(* ===================================================================== *)
(** * swetrack_extended.py: the token file *)
(* ===================================================================== *)

Module Config.

(** How [load_token] ends when it raises. *)
Inductive load_error : Type :=
| FileNotFound                   (* FileNotFoundError: the path does not exist *)
| NotJson                        (* json.loads raises *)
| NoGet (data : json)            (* AttributeError: the document is not an object *)
| MissingOrInvalid.              (* ValueError: Missing/invalid bearer_token *)

Section Load.

Variable strip : string -> string.

(** [file]: [None] when the path does not exist, else the text of the file
    decoded as JSON, or [None] when it is not JSON. *)
Definition load_token (file : option (option json)) : load_error + string :=
  match file with
  | None => inl FileNotFound
  | Some None => inl NotJson
  | Some (Some data) =>
      match data with
      | JDict d =>
          match get d "bearer_token" with
          | JStr token =>
              if String.eqb token "" then inl MissingOrInvalid else inr (strip token)
          | _ => inl MissingOrInvalid
          end
      | _ => inl (NoGet data)
      end
  end.

End Load.

End Config.

(* ===================================================================== *)
(** * The request layer ([api.py]) *)
(* ===================================================================== *)

Import Trace.

Lemma request_unfold : forall method path body w,
  Api._request method path body w =
  (Api._request_result
     (responder w (map fst (log w) ++ [mkRequest method path body])),
   {| responder := responder w;
      log := log w ++ [(mkRequest method path body,
                        responder w (map fst (log w) ++ [mkRequest method path body]))] |}).
Proof. reflexivity. Qed.

Lemma is_False_spec : forall v, is_False v = true <-> v = JBool false.
Proof.
  intros v; split.
  - destruct v as [ | [ | ] | | | | | ]; simpl; intros H; try discriminate; reflexivity.
  - intros ->; reflexivity.
Qed.

Lemma api_get_unfold : forall path w,
  Cli.api_get path w =
  (Cli.response_json (responder w (map fst (log w) ++ [mkRequest "GET" path None])),
   {| responder := responder w;
      log := log w ++ [(mkRequest "GET" path None,
                        responder w (map fst (log w) ++ [mkRequest "GET" path None]))] |}).
Proof. reflexivity. Qed.

(** C2, as amended: behind a 2xx status, [_request] raises exactly when the
    decoded value is not an object or its [success] field is [False]; in the
    latter case the detail is the [error] field when that field is truthy
    and the whole object otherwise; in every other case the object is
    returned as it came.  [get_devices] of the stand-alone tool raises
    whenever the [success] field of the object is absent or falsy, with the
    same choice of detail, and goes on to read the device array otherwise. *)
Theorem request_classification : forall status data,
  200 <= status < 300 ->
  (forall method path body w,
     responder w (map fst (log w) ++ [mkRequest method path body])
       = HttpResponse status (Some data) ->
     let r := fst (Api._request method path body w) in
     (is_raise r = true <->
        is_dict data = false
        \/ exists d, data = JDict d /\ get d "success" = JBool false)
     /\ (forall d, data = JDict d -> get d "success" = JBool false ->
           r = Raise (Exn SweTrackApiError
                        (MsgApi (if truthy (get d "error") then get d "error" else data))))
     /\ (is_dict data = false ->
           r = Raise (Exn SweTrackApiError (MsgUnexpectedResponse data)))
     /\ (forall d, data = JDict d -> get d "success" <> JBool false -> r = Ok d))
  /\ (forall w d,
        responder w (map fst (log w) ++ [mkRequest "GET" Cli.DEVICES_INFO_PATH None])
          = HttpResponse status (Some data) ->
        data = JDict d ->
        let r := fst (Cli.get_devices w) in
        (truthy (get d "success") = false ->
           r = Raise (Exn RuntimeError
                        (MsgDevicesInfo
                           (if truthy (get d "error") then get d "error" else data))))
        /\ (truthy (get d "success") = true ->
              r = let? devices :=
                    py_get_default (get_default d "data" (JDict [])) "devices" (JList []) in
                  Ok (py_or devices (JList [])))).
Proof.
  intros status data Hstatus. split.
  - intros method path body w Hresp r.
    subst r. rewrite request_unfold. cbn [fst]. rewrite Hresp.
    unfold Api._request_result.
    assert (Hs : (status >=? 400) = false)
      by (rewrite Z.geb_leb; apply Z.leb_gt; lia).
    rewrite Hs.
    destruct data as [ | b | z | f | s | l | d ].
    1-6: (split; [ split; [ intros _; left; reflexivity | reflexivity ]
                 | split; [ intros; discriminate
                          | split; [ reflexivity | intros; discriminate ] ] ]).
    destruct (is_False (get d "success")) eqn:E.
    + apply is_False_spec in E.
      split; [ split; [ intros _; right; exists d; auto | reflexivity ] | ].
      split; [ intros d' Hd _; injection Hd as <-; reflexivity | ].
      split; [ intros; discriminate | ].
      intros d' Hd N; injection Hd as <-; congruence.
    + assert (N : get d "success" <> JBool false).
      { intros C. apply is_False_spec in C. congruence. }
      split.
      { split; [ intros; discriminate | ].
        intros [H | (d' & Hd & Hf)]; [ discriminate | ].
        injection Hd as <-; congruence. }
      split; [ intros d' Hd Hf; injection Hd as <-; congruence | ].
      split; [ intros; discriminate | ].
      intros d' Hd _; injection Hd as <-; reflexivity.
  - intros w d Hresp -> r. subst r.
    unfold Cli.get_devices, bind, lift. rewrite api_get_unfold, Hresp.
    unfold Cli.response_json.
    assert (Hs : ((400 <=? status) && (status <? 600))%bool = false).
    { replace (400 <=? status) with false by (symmetry; apply Z.leb_gt; lia).
      reflexivity. }
    rewrite Hs. cbn [fst py_get rbind].
    split; intros T; rewrite T; reflexivity.
Qed.

(** C2, the claim as stated fails.  In the integration, with
    [{"success": false, "error": ""}] the [error] field is present, yet the
    detail raised is the whole object.  In the stand-alone tool, an object
    without a [success] field is not returned: [get_devices] raises. *)
Lemma request_error_detail_counterexample :
  let d := [("success", JBool false); ("error", JStr "")] in
  let d' := [("data", JDict [("devices", JList [Fixture.device "d1"])])] in
  (assoc "error" d = Some (JStr "")
   /\ fst (Api._request "GET" "/devices/info" None
             (Fixture.script [Fixture.ok (JDict d)]))
      = Raise (Exn SweTrackApiError (MsgApi (JDict d)))
   /\ MsgApi (JDict d) <> MsgApi (JStr ""))
  /\ (assoc "success" d' = None
      /\ fst (Cli.get_devices (Fixture.script [Fixture.ok (JDict d')]))
         = Raise (Exn RuntimeError (MsgDevicesInfo (JDict d')))).
Proof.
  cbv zeta. split.
  - split; [ reflexivity | split; [ reflexivity | discriminate ] ].
  - split; reflexivity.
Qed.

Lemma request_classification_witness :
  fst (Api._request "POST" "/device/info/extended" None
         (Fixture.script [Fixture.ok Fixture.rate_limited]))
  = Raise (Exn SweTrackApiError (MsgApi (JStr "rate limited"))).
Proof.
  pose proof (proj1 (request_classification 200 Fixture.rate_limited
                       (conj (proj1 (Z.leb_le 200 200) eq_refl) eq_refl))
                "POST" "/device/info/extended" None
                (Fixture.script [Fixture.ok Fixture.rate_limited]) eq_refl) as H.
  exact (proj1 (proj2 H) _ eq_refl eq_refl).
Defined.

(* ===================================================================== *)
(** * The refresh cycle ([coordinator.py]) *)
(* ===================================================================== *)

Section Traces.

Context {A B : Type}.

Lemma clean_nil : forall (r : result A), clean r [].
Proof. intros r [ | x pre] c post E; discriminate. Qed.

Lemma traced_ret : forall (a : A), traced (ret a).
Proof.
  intros a w r w' H. injection H as <- <-.
  split; [ reflexivity | exists []; rewrite app_nil_r; split; [ reflexivity | apply clean_nil ] ].
Qed.

Lemma traced_lift : forall (x : result A), traced (lift x).
Proof.
  intros x w r w' H. injection H as <- <-.
  split; [ reflexivity | exists []; rewrite app_nil_r; split; [ reflexivity | apply clean_nil ] ].
Qed.

Lemma traced_bind : forall (m : IO A) (k : A -> IO B),
  traced m -> (forall a, traced (k a)) -> traced (bind m k).
Proof.
  intros m k Hm Hk w r w' H. unfold bind in H.
  destruct (m w) as [[a | e] w1] eqn:E.
  - destruct (Hm _ _ _ E) as (R1 & new1 & L1 & C1).
    destruct (Hk a _ _ _ H) as (R2 & new2 & L2 & C2).
    split; [ congruence | ].
    exists (new1 ++ new2). split; [ rewrite L2, L1, app_assoc; reflexivity | ].
    intros pre c post Eq F.
    apply app_eq_app in Eq. destruct Eq as (l & [(E1 & E2) | (E1 & E2)]).
    + destruct l as [ | x l]; simpl in E2.
      * apply (C2 [] c post); [ symmetry; exact E2 | exact F ].
      * injection E2 as <- E2.
        destruct (C1 pre c l E1 F) as (_ & Habs). discriminate.
    + apply (C2 l c post); assumption.
  - injection H as <- <-.
    destruct (Hm _ _ _ E) as (R1 & new1 & L1 & C1).
    split; [ exact R1 | ]. exists new1. split; [ exact L1 | ].
    intros pre c post Eq F. destruct (C1 pre c post Eq F). split; auto.
Qed.

End Traces.

Lemma traced_request : forall method path body, traced (Api._request method path body).
Proof.
  intros method path body w r w' H. rewrite request_unfold in H.
  injection H as <- <-. split; [ reflexivity | ].
  eexists; split; [ reflexivity | ].
  intros [ | x pre] c post E F; simpl in E.
  - injection E as <- <-. split; [ reflexivity | exact F ].
  - injection E as _ E. destruct pre; discriminate.
Qed.

Lemma traced_extend_devices : forall ds acc, traced (Coordinator.extend_devices ds acc).
Proof.
  induction ds as [ | d ds IH]; intros acc; simpl.
  - apply traced_ret.
  - apply traced_bind; [ apply traced_lift | intros device_id ].
    destruct (negb (truthy device_id)); [ apply IH | ].
    apply traced_bind; [ apply traced_request | intros pos_payload ].
    apply traced_bind; [ apply traced_request | intros volt_payload ].
    apply traced_bind; [ apply traced_lift | intros acc' ].
    apply IH.
Qed.

Lemma traced_update_body : forall fetch_extended,
  traced (Coordinator.update_body fetch_extended).
Proof.
  intros fe. unfold Coordinator.update_body.
  apply traced_bind; [ apply traced_request | intros devices_payload ].
  apply traced_bind; [ apply traced_lift | intros devices ].
  apply traced_bind; [ | intros ext; apply traced_ret ].
  destruct fe; [ apply traced_extend_devices | apply traced_ret ].
Qed.

(** C1: in one refresh cycle, a request that raises (the device list or any
    per-device per-type extended fetch) is the last request of the cycle,
    and the cycle then raises UpdateFailed and returns no snapshot; a cycle
    raises nothing but UpdateFailed; a snapshot is returned only when every
    request of the cycle succeeded. *)
Theorem refresh_all_or_nothing : forall fetch_extended w,
  let r := fst (Coordinator._async_update_data fetch_extended w) in
  let w' := snd (Coordinator._async_update_data fetch_extended w) in
  exists new,
    log w' = log w ++ new
    /\ (forall c, In c new -> failed c = true ->
          exists m, r = Raise (Exn UpdateFailed m))
    /\ (forall pre c post, new = pre ++ c :: post -> failed c = true -> post = [])
    /\ (forall e, r = Raise e -> class_of e = UpdateFailed)
    /\ (forall snap, r = Ok snap -> forall c, In c new -> failed c = false).
Proof.
  intros fe w. cbv zeta. unfold Coordinator._async_update_data.
  destruct (Coordinator.update_body fe w) as [r0 w0] eqn:E.
  destruct (traced_update_body fe w r0 w0 E) as (_ & new & L & C).
  assert (Hlog : log (snd (match r0 with
                            | Ok snap => (Ok snap, w0)
                            | Raise (Exn SweTrackApiError m) => (Raise (Exn UpdateFailed m), w0)
                            | Raise (Exn _ m) =>
                                (Raise (Exn UpdateFailed (MsgUnexpectedError m)), w0)
                            end : result Coordinator.snapshot * world)) = log w ++ new).
  { destruct r0 as [snap | [[] m]]; exact L. }
  exists new. split; [ exact Hlog | clear Hlog ].
  split; [ | split; [ | split ] ].
  - intros c Hin F. apply in_split in Hin. destruct Hin as (pre & post & ->).
    destruct (C pre c post eq_refl F) as (_ & R).
    destruct r0 as [snap | [[] m]]; try discriminate; cbn [fst]; eexists; reflexivity.
  - intros pre c post Eq F. apply (C pre c post Eq F).
  - intros e. destruct r0 as [snap | [[] m]]; cbn [fst]; intros H;
      try discriminate; injection H as <-; reflexivity.
  - intros snap H c Hin. destruct (failed c) eqn:F; [ | reflexivity ].
    apply in_split in Hin. destruct Hin as (pre & post & ->).
    destruct (C pre c post eq_refl F) as (_ & R).
    destruct r0 as [snap0 | [[] m]]; discriminate.
Qed.

Lemma refresh_all_or_nothing_witness :
  exists m,
    fst (Coordinator._async_update_data true
           (Fixture.script [Fixture.ok (Fixture.device_list
                                          [Fixture.device "d1"; Fixture.device "d2"]);
                            Fixture.ok (Fixture.positions [Fixture.position_row]);
                            Fixture.ok Fixture.rate_limited]))
    = Raise (Exn UpdateFailed m).
Proof.
  destruct (refresh_all_or_nothing true
              (Fixture.script [Fixture.ok (Fixture.device_list
                                             [Fixture.device "d1"; Fixture.device "d2"]);
                               Fixture.ok (Fixture.positions [Fixture.position_row]);
                               Fixture.ok Fixture.rate_limited]))
    as (new & L & F & _).
  vm_compute in L. subst new.
  eapply F; [ right; right; left; reflexivity | reflexivity ].
Defined.

(** The first scenario of the spec: one device, one position row. *)
Example refresh_one_device :
  fst (Coordinator._async_update_data true
         (Fixture.script [Fixture.ok (Fixture.device_list [Fixture.device "d1"]);
                          Fixture.ok (Fixture.positions [Fixture.position_row]);
                          Fixture.ok (Fixture.voltages [])]))
  = Ok {| Coordinator.devices_payload :=
            [("success", JBool true);
             ("data", JDict [("devices", JList [Fixture.device "d1"])])];
          Coordinator.devices := [Fixture.device "d1"];
          Coordinator.extended :=
            [(JStr "d1", [("position_latest", Fixture.position_row)])] |}.
Proof. reflexivity. Qed.

Lemma bind_ok_inv : forall A B (m : IO A) (k : A -> IO B) w b w',
  bind m k w = (Ok b, w') ->
  exists a w1, m w = (Ok a, w1) /\ k a w1 = (Ok b, w').
Proof.
  intros A B m k w b w' H. unfold bind in H.
  destruct (m w) as [[a | e] w1]; [ eauto | discriminate ].
Qed.

Lemma setitem_keys : forall V k (v : V) d k',
  In k' (map fst (setitem k v d)) -> In k' (map fst d) \/ k' = k.
Proof.
  intros V k v d k'. induction d as [ | [k0 v0] d IH]; simpl.
  - intros [H | []]; auto.
  - destruct (key_eqb k0 k); simpl; intros [H | H]; auto.
    destruct (IH H); auto.
Qed.

Lemma extend_devices_keys : forall ds acc w acc' w',
  Coordinator.extend_devices ds acc w = (Ok acc', w') ->
  forall k, In k (map fst acc') ->
    In k (map fst acc) \/ exists d, In d ds /\ py_get d "id" = Ok k.
Proof.
  induction ds as [ | d ds IH]; intros acc w acc' w' H k Hk; simpl in H.
  - injection H as <- <-. auto.
  - apply bind_ok_inv in H. destruct H as (device_id & w1 & H1 & H).
    injection H1 as H1 <-.
    destruct (negb (truthy device_id)).
    + destruct (IH _ _ _ _ H k Hk) as [ | (d' & Hin & Hid)]; [ auto | ].
      right. exists d'. split; [ right; exact Hin | exact Hid ].
    + apply bind_ok_inv in H. destruct H as (pos_payload & w2 & _ & H).
      apply bind_ok_inv in H. destruct H as (volt_payload & w3 & _ & H).
      apply bind_ok_inv in H. destruct H as (acc1 & w4 & H4 & H).
      injection H4 as H4 <-. unfold py_setitem in H4.
      destruct (hashable device_id); [ | discriminate ].
      injection H4 as <-.
      destruct (IH _ _ _ _ H k Hk) as [Hacc | (d' & Hin & Hid)].
      * apply setitem_keys in Hacc. destruct Hacc as [ | ->]; [ auto | ].
        right. exists d. split; [ left; reflexivity | exact H1 ].
      * right. exists d'. split; [ right; exact Hin | exact Hid ].
Qed.

(** C7: whatever the device-list and extended endpoints answer, every key of
    the extended mapping of a returned snapshot is the [id] of a device of
    that snapshot's device list. *)
Theorem extended_keys_are_device_ids : forall fetch_extended w snap w',
  Coordinator._async_update_data fetch_extended w = (Ok snap, w') ->
  forall k, In k (map fst (Coordinator.extended snap)) ->
    exists d, In d (Coordinator.devices snap) /\ py_get d "id" = Ok k.
Proof.
  intros fe w snap w' H k Hk. unfold Coordinator._async_update_data in H.
  destruct (Coordinator.update_body fe w) as [[snap0 | [c m]] w0] eqn:E;
    [ | destruct c; discriminate ].
  injection H as <- <-. unfold Coordinator.update_body in E.
  apply bind_ok_inv in E. destruct E as (payload & w1 & _ & E).
  apply bind_ok_inv in E. destruct E as (devs & w2 & _ & E).
  apply bind_ok_inv in E. destruct E as (ext & w3 & E3 & E).
  injection E as <- <-. cbn [Coordinator.extended Coordinator.devices] in *.
  destruct fe.
  - destruct (extend_devices_keys _ _ _ _ _ E3 k Hk) as [[] | ]; assumption.
  - injection E3 as <- <-. destruct Hk.
Qed.

Lemma extended_keys_are_device_ids_witness :
  exists d,
    In d [Fixture.device "d1"] /\ py_get d "id" = Ok (JStr "d1").
Proof.
  exact (extended_keys_are_device_ids true
           (Fixture.script [Fixture.ok (Fixture.device_list [Fixture.device "d1"]);
                            Fixture.ok (Fixture.positions [Fixture.position_row]);
                            Fixture.ok (Fixture.voltages [])])
           _ _ eq_refl (JStr "d1") (or_introl eq_refl)).
Defined.

(** The shapes for which the device array does default to the empty list:
    [data] missing or falsy, or an object whose [devices] is missing, falsy
    or not a list. *)
Lemma device_list_defaults_to_empty : forall fetch_extended w status payload,
  responder w (map fst (log w) ++ [mkRequest "GET" "/devices/info" None])
    = HttpResponse status (Some (JDict payload)) ->
  status < 400 ->
  get payload "success" <> JBool false ->
  truthy (get payload "data") = false
  \/ (exists data, get payload "data" = JDict data
        /\ (truthy (get data "devices") = false \/ is_list (get data "devices") = false)) ->
  fst (Coordinator._async_update_data fetch_extended w)
  = Ok {| Coordinator.devices_payload := payload;
          Coordinator.devices := [];
          Coordinator.extended := [] |}.
Proof.
  intros fe w status payload Hresp Hstatus Hsucc Hshape.
  unfold Coordinator._async_update_data, Coordinator.update_body,
    Api.async_get_devices, bind.
  rewrite request_unfold, Hresp. unfold Api._request_result.
  assert (Hs : (status >=? 400) = false)
    by (rewrite Z.geb_leb; apply Z.leb_gt; lia).
  rewrite Hs.
  assert (Hf : is_False (get payload "success") = false).
  { destruct (is_False (get payload "success")) eqn:E; [ | reflexivity ].
    apply is_False_spec in E. contradiction. }
  rewrite Hf. unfold lift, py_or.
  assert (Hdev : exists data,
             (if truthy (get payload "data") then get payload "data" else JDict [])
             = JDict data
             /\ match (if truthy (get data "devices") then get data "devices" else JList [])
                with JList l => l | _ => [] end = []).
  { destruct Hshape as [Hd | (data & Hd & Hv)].
    - rewrite Hd. exists []. split; reflexivity.
    - rewrite Hd. exists data.
      split; [ destruct (truthy (JDict data)) eqn:T; [ reflexivity | ] | ].
      + destruct data; [ reflexivity | discriminate ].
      + destruct Hv as [Hv | Hv]; [ rewrite Hv; reflexivity | ].
        destruct (truthy (get data "devices")); [ | reflexivity ].
        destruct (get data "devices"); try reflexivity; discriminate. }
  destruct Hdev as (data & -> & Hl). cbn [py_get].
  rewrite Hl. destruct fe; reflexivity.
Qed.

(** C8: a device-list payload whose [data] is a non-empty string is of the
    wrong shape, and the build fails instead of publishing zero devices:
    [.get] is called on the string inside the [try] block. *)
Theorem device_list_wrong_shape_fails :
  fst (Coordinator._async_update_data true
         (Fixture.script
            [Fixture.ok (JDict [("success", JBool true);
                                ("data", JStr "unavailable")])]))
  = Raise (Exn UpdateFailed
             (MsgUnexpectedError (MsgText "'str' object has no attribute 'get'"))).
Proof. reflexivity. Qed.

(** The standalone tool reads the same field without the [or {}] and with no
    handler around it: a null [data] ends [main] with AttributeError. *)
Example main_devices_null_data :
  fst (Cli.main_devices
         (Fixture.script
            [Fixture.ok (JDict [("success", JBool true); ("data", JNull)])]))
  = Raise (Exn AttributeError (MsgText "'NoneType' object has no attribute 'get'")).
Proof. reflexivity. Qed.

(* ===================================================================== *)
(** * The paginator ([swetrack_extended.py]) *)
(* ===================================================================== *)

Lemma api_post_log : forall path body w r w',
  Cli.api_post path body w = (r, w') ->
  responder w' = responder w
  /\ exists o, log w' = log w ++ [(mkRequest "POST" path (Some body), o)].
Proof.
  intros path body w r w' H. unfold Cli.api_post, exchange in H.
  injection H as _ <-. split; [ reflexivity | eexists; reflexivity ].
Qed.

Lemma fetch_loop_turn : forall a fuel st w payload w',
  Cli.api_post Cli.DEVICE_EXTENDED_PATH (Cli.request_body a (Cli.page st)) w
    = (Ok payload, w') ->
  Cli.fetch_loop a (S fuel) st w =
  match Cli.loop_body a st payload with
  | Raise e => Some (Raise e, w')
  | Ok (Cli.Return r) => Some (Ok r, w')
  | Ok (Cli.Continue st') => Cli.fetch_loop a fuel st' w'
  end.
Proof.
  intros a fuel st w payload w' H. cbn [Cli.fetch_loop]. rewrite H. reflexivity.
Qed.

(** A state the loop reaches is a state the whole fetch goes through. *)
Lemma reaches_fuel : forall a w0 st w,
  reaches a w0 st w ->
  exists k, forall n,
    Cli.fetch_extended_all_pages a (k + n) w0 = Cli.fetch_loop a n st w.
Proof.
  intros a w0 st w R. induction R as [ | st w payload w' st' R (k & IH) Hpost Hbody].
  - exists 0%nat. reflexivity.
  - exists (S k). intros n.
    replace (S k + n)%nat with (k + S n)%nat by lia.
    rewrite IH, (fetch_loop_turn _ _ _ _ _ _ Hpost), Hbody. reflexivity.
Qed.

(** One turn on a page that passes the envelope check and whose pagination
    descriptor can be read. *)
Lemma loop_body_readable : forall a st p pg,
  truthy (get p "success") = true ->
  Cli.page_pagination (JDict p) = Ok (JDict pg) ->
  let rows := Cli.page_rows (Cli.typ a) (get_default p "data" (JDict [])) in
  let all := Cli.all_rows st ++ rows in
  let meta := py_or (get_default p "meta" (JDict [])) (JDict []) in
  Cli.loop_body a st (JDict p) =
  if Cli.max_rows a <=? Z.of_nat (List.length all) then
    Ok (Cli.Return (Cli.Pair (slice_to (Cli.max_rows a) all) meta))
  else
    match rows with
    | [] => Ok (Cli.Return (Cli.Pair all meta))
    | _ :: _ =>
        let? stop :=
          match int_value (get pg "total_pages") with
          | Some t => py_ge_int (get_default pg "page" (JInt (Cli.page st)))
                                (get pg "total_pages") t
          | None => Ok false
          end in
        if stop then Ok (Cli.Return (Cli.Triple all meta (Cli.raw_pages st ++ [JDict p])))
        else Ok (Cli.Continue {| Cli.all_rows := all; Cli.page := Cli.page st + 1;
                                 Cli.last_meta := meta;
                                 Cli.raw_pages := Cli.raw_pages st ++ [JDict p] |})
    end.
Proof.
  intros a st p pg Hs Hp. cbv zeta. unfold Cli.loop_body.
  cbn [py_get py_get_default rbind]. rewrite Hs. cbn [negb].
  rewrite Hp. reflexivity.
Qed.

Lemma slice_to_nonneg : forall A (n : Z) (l : list A),
  0 <= n -> n <= Z.of_nat (List.length l) ->
  slice_to n l = firstn (Z.to_nat n) l
  /\ Z.of_nat (List.length (slice_to n l)) = n.
Proof.
  intros A n l H0 Hn. unfold slice_to.
  replace (0 <=? n) with true by (symmetry; apply Z.leb_le; exact H0).
  split; [ reflexivity | ].
  rewrite length_firstn, Nat.min_l by lia. lia.
Qed.

(** C3, as amended: for [max_rows >= 0], when a page that passes the envelope
    check and has a readable pagination descriptor brings the accumulated
    rows to [max_rows] or more, the fetch returns the first [max_rows]
    accumulated rows in their order, exactly [max_rows] of them, and that
    page's request is the last one made. *)
Theorem max_rows_truncation : forall a w0 st w p w' pg,
  0 <= Cli.max_rows a ->
  reaches a w0 st w ->
  Cli.api_post Cli.DEVICE_EXTENDED_PATH (Cli.request_body a (Cli.page st)) w
    = (Ok (JDict p), w') ->
  truthy (get p "success") = true ->
  Cli.page_pagination (JDict p) = Ok (JDict pg) ->
  let all := Cli.all_rows st
             ++ Cli.page_rows (Cli.typ a) (get_default p "data" (JDict [])) in
  Cli.max_rows a <= Z.of_nat (List.length all) ->
  exists rows meta,
    rows = firstn (Z.to_nat (Cli.max_rows a)) all
    /\ Z.of_nat (List.length rows) = Cli.max_rows a
    /\ (exists fuel0, forall fuel, (fuel0 <= fuel)%nat ->
          Cli.fetch_extended_all_pages a fuel w0 = Some (Ok (Cli.Pair rows meta), w'))
    /\ map fst (log w')
       = map fst (log w)
         ++ [mkRequest "POST" Cli.DEVICE_EXTENDED_PATH
               (Some (Cli.request_body a (Cli.page st)))].
Proof.
  intros a w0 st w p w' pg H0 R Hpost Hs Hp all Hmax.
  destruct (slice_to_nonneg _ (Cli.max_rows a) all H0 Hmax) as (Hslice & Hlen).
  exists (firstn (Z.to_nat (Cli.max_rows a)) all),
         (py_or (get_default p "meta" (JDict [])) (JDict [])).
  split; [ reflexivity | ].
  split; [ rewrite <- Hslice; exact Hlen | ].
  split.
  - destruct (reaches_fuel _ _ _ _ R) as (k & Hk).
    exists (k + 1)%nat. intros fuel Hfuel.
    replace fuel with (k + S (fuel - k - 1))%nat by lia.
    rewrite Hk, (fetch_loop_turn _ _ _ _ _ _ Hpost).
    rewrite (loop_body_readable a st p pg Hs Hp). cbv zeta. fold all.
    replace (Cli.max_rows a <=? Z.of_nat (List.length all)) with true
      by (symmetry; apply Z.leb_le; exact Hmax).
    rewrite Hslice. reflexivity.
  - destruct (api_post_log _ _ _ _ _ Hpost) as (_ & o & ->).
    rewrite map_app. reflexivity.
Qed.

Lemma max_rows_truncation_witness :
  exists rows meta,
    rows = [Fixture.sample 1; Fixture.sample 2; Fixture.sample 3]
    /\ Z.of_nat (List.length rows) = 3
    /\ (exists fuel0, forall fuel, (fuel0 <= fuel)%nat ->
          option_map fst
            (Cli.fetch_extended_all_pages (Fixture.args "position" 3) fuel
               (Fixture.script
                  [Fixture.ok (Fixture.positions [Fixture.sample 1; Fixture.sample 2]);
                   Fixture.ok (Fixture.positions [Fixture.sample 3; Fixture.sample 4])]))
          = Some (Ok (Cli.Pair rows meta))).
Proof.
  pose (a := Fixture.args "position" 3).
  pose (w0 := Fixture.script
                [Fixture.ok (Fixture.positions [Fixture.sample 1; Fixture.sample 2]);
                 Fixture.ok (Fixture.positions [Fixture.sample 3; Fixture.sample 4])]).
  edestruct (max_rows_truncation a w0) as (rows & meta & Hr & Hl & (fuel0 & Hf) & _).
  - discriminate.
  - eapply reaches_next; [ apply reaches_start | reflexivity | reflexivity ].
  - reflexivity.
  - reflexivity.
  - reflexivity.
  - discriminate.
  - exists rows, meta. vm_compute in Hr.
    split; [ exact Hr | split; [ exact Hl | ] ].
    exists fuel0. intros fuel Hfuel. fold a w0. rewrite (Hf fuel Hfuel). reflexivity.
Defined.

(** C3, the claim as stated fails for a negative [max_rows]: the count test
    holds at once and the slice [all_rows[:-1]] drops the last row, so the
    result has neither [max_rows] rows nor the first [max_rows] rows. *)
Lemma max_rows_negative_counterexample :
  let a := Fixture.args "position" (-1) in
  let all := [Fixture.sample 1; Fixture.sample 2] in
  Cli.max_rows a <= Z.of_nat (List.length all)
  /\ option_map fst
       (Cli.fetch_extended_all_pages a 1
          (Fixture.script [Fixture.ok (Fixture.positions all)]))
     = Some (Ok (Cli.Pair [Fixture.sample 1] (JDict [])))
  /\ Z.of_nat (List.length [Fixture.sample 1]) <> Cli.max_rows a
  /\ [Fixture.sample 1] <> firstn (Z.to_nat (Cli.max_rows a)) all.
Proof.
  cbv zeta. split; [ discriminate | ].
  split; [ reflexivity | ]. split; discriminate.
Qed.

(** On a page that passes the envelope check and whose pagination descriptor
    can be read, an empty row list below [max_rows] ends the fetch with the
    rows of the earlier pages, and no further page is requested. *)
Lemma empty_page_stops : forall a w0 st w p w' pg,
  reaches a w0 st w ->
  Cli.api_post Cli.DEVICE_EXTENDED_PATH (Cli.request_body a (Cli.page st)) w
    = (Ok (JDict p), w') ->
  truthy (get p "success") = true ->
  Cli.page_pagination (JDict p) = Ok (JDict pg) ->
  Cli.page_rows (Cli.typ a) (get_default p "data" (JDict [])) = [] ->
  Z.of_nat (List.length (Cli.all_rows st)) < Cli.max_rows a ->
  exists fuel0 meta, forall fuel, (fuel0 <= fuel)%nat ->
    Cli.fetch_extended_all_pages a fuel w0
    = Some (Ok (Cli.Pair (Cli.all_rows st) meta), w').
Proof.
  intros a w0 st w p w' pg R Hpost Hs Hp Hrows Hlt.
  destruct (reaches_fuel _ _ _ _ R) as (k & Hk).
  exists (k + 1)%nat, (py_or (get_default p "meta" (JDict [])) (JDict [])).
  intros fuel Hfuel.
  replace fuel with (k + S (fuel - k - 1))%nat by lia.
  rewrite Hk, (fetch_loop_turn _ _ _ _ _ _ Hpost).
  rewrite (loop_body_readable a st p pg Hs Hp). cbv zeta.
  rewrite Hrows, app_nil_r.
  replace (Cli.max_rows a <=? Z.of_nat (List.length (Cli.all_rows st))) with false
    by (symmetry; apply Z.leb_gt; exact Hlt).
  reflexivity.
Qed.

(** C4: page 2 answers [{"success": true, "data": null}]: its row list is
    empty and one row is accumulated, well below [max_rows]; the fetch does
    not return that row, it raises AttributeError when line 152 calls
    [.get] on the null [data] that line 128 had guarded with [or {}]. *)
Theorem empty_page_null_data_raises : forall fuel,
  Cli.page_rows "position" JNull = []
  /\ option_map fst
       (Cli.fetch_extended_all_pages (Fixture.args "position" 500) (S (S fuel))
          (Fixture.script [Fixture.ok (Fixture.positions [Fixture.sample 1]);
                           Fixture.ok Fixture.null_data]))
     = Some (Raise (Exn AttributeError
                      (MsgText "'NoneType' object has no attribute 'get'"))).
Proof. intros fuel. split; reflexivity. Qed.

(** C5: the tuple returned depends on the stop condition: two values when
    [max_rows] is reached or the page is empty, three values on the
    total-pages stop. *)
Theorem fetch_result_shape_varies : forall fuel,
  let run a pages :=
    option_map fst (Cli.fetch_extended_all_pages a (S fuel) (Fixture.script pages)) in
  let last := Fixture.paged [Fixture.sample 1] [("page", JInt 1); ("total_pages", JInt 1)] in
  run (Fixture.args "position" 1) [Fixture.ok (Fixture.positions [Fixture.sample 1])]
    = Some (Ok (Cli.Pair [Fixture.sample 1] (JDict [])))
  /\ run (Fixture.args "position" 500) [Fixture.ok (Fixture.positions [])]
    = Some (Ok (Cli.Pair [] (JDict [])))
  /\ run (Fixture.args "position" 500) [Fixture.ok last]
    = Some (Ok (Cli.Triple [Fixture.sample 1] (JDict []) [last])).
Proof. intros fuel. cbv zeta. repeat split. Qed.

(** C10: on a page that has rows and leaves the count below [max_rows], with
    an integer [total_pages], the loop stops exactly when the descriptor's
    [page] value, whatever the page requested, is at least [total_pages];
    the request counter [page] is compared only when the field is absent.
    Hence a server that reports page 3 of 3 on the first request ends after
    one request a fetch that takes three without the [page] field, and a
    server that reports page 1 of 2 on every request keeps running, here up
    to an empty third page, a fetch that takes two without the field. *)
Theorem total_pages_stop_uses_reported_page :
  (forall a st p pg t x rows,
     truthy (get p "success") = true ->
     Cli.page_pagination (JDict p) = Ok (JDict pg) ->
     Cli.page_rows (Cli.typ a) (get_default p "data" (JDict [])) = x :: rows ->
     Z.of_nat (List.length (Cli.all_rows st ++ x :: rows)) < Cli.max_rows a ->
     int_value (get pg "total_pages") = Some t ->
     let r := Cli.loop_body a st (JDict p) in
     let stops := exists rows meta raw, r = Ok (Cli.Return (Cli.Triple rows meta raw)) in
     let continues :=
       exists st', r = Ok (Cli.Continue st') /\ Cli.page st' = Cli.page st + 1 in
     let verdict c :=
       match c with
       | Ok true => stops
       | Ok false => continues
       | Raise e => r = Raise e
       end in
     (forall v, assoc "page" pg = Some v -> verdict (py_ge_int v (get pg "total_pages") t))
     /\ (forall c, assoc "page" pg = Some (JInt c) ->
           (t <= c -> stops) /\ (c < t -> continues))
     /\ (assoc "page" pg = None ->
           (t <= Cli.page st -> stops) /\ (Cli.page st < t -> continues)))
  /\ (let requests pages :=
        option_map (fun x => List.length (log (snd x)))
          (Cli.fetch_extended_all_pages (Fixture.args "position" 500) 10
             (Fixture.script (map Fixture.ok pages))) in
      let plain n rows := Fixture.paged rows [("total_pages", JInt n)] in
      let reporting k n rows :=
        Fixture.paged rows [("page", JInt k); ("total_pages", JInt n)] in
      (requests [reporting 3 3 [Fixture.sample 1]; reporting 3 3 [Fixture.sample 2];
                 reporting 3 3 [Fixture.sample 3]] = Some 1%nat
       /\ requests [plain 3 [Fixture.sample 1]; plain 3 [Fixture.sample 2];
                    plain 3 [Fixture.sample 3]] = Some 3%nat)
      /\ (requests [reporting 1 2 [Fixture.sample 1]; reporting 1 2 [Fixture.sample 2];
                    reporting 1 2 []] = Some 3%nat
          /\ requests [plain 2 [Fixture.sample 1]; plain 2 [Fixture.sample 2];
                       plain 2 []] = Some 2%nat)).
Proof.
  split; [ | cbv zeta; repeat split ].
  intros a st p pg t x rows Hs Hp Hrows Hlt Ht r stops continues verdict.
  assert (Hr : forall cur, get_default pg "page" (JInt (Cli.page st)) = cur ->
                 verdict (py_ge_int cur (get pg "total_pages") t)).
  { intros cur Hcur. subst verdict stops continues r. cbv beta.
    rewrite (loop_body_readable a st p pg Hs Hp). cbv zeta.
    rewrite Hrows.
    replace (Cli.max_rows a <=? Z.of_nat (List.length (Cli.all_rows st ++ x :: rows)))
      with false by (symmetry; apply Z.leb_gt; exact Hlt).
    rewrite Ht, Hcur.
    destruct (py_ge_int cur (get pg "total_pages") t) as [[ | ] | e]; cbn [rbind].
    - do 3 eexists; reflexivity.
    - eexists; split; reflexivity.
    - reflexivity. }
  split; [ | split ].
  - intros v Hv. apply Hr. unfold get_default. rewrite Hv. reflexivity.
  - intros c Hc.
    assert (Hv := Hr (JInt c)). unfold get_default in Hv. rewrite Hc in Hv.
    specialize (Hv eq_refl). cbn [py_ge_int] in Hv.
    split; intros Hcmp.
    + replace (t <=? c) with true in Hv by (symmetry; apply Z.leb_le; exact Hcmp).
      exact Hv.
    + replace (t <=? c) with false in Hv by (symmetry; apply Z.leb_gt; exact Hcmp).
      exact Hv.
  - intros Hnone.
    assert (Hv := Hr (JInt (Cli.page st))). unfold get_default in Hv.
    rewrite Hnone in Hv. specialize (Hv eq_refl). cbn [py_ge_int] in Hv.
    split; intros Hcmp.
    + replace (t <=? Cli.page st) with true in Hv
        by (symmetry; apply Z.leb_le; exact Hcmp).
      exact Hv.
    + replace (t <=? Cli.page st) with false in Hv
        by (symmetry; apply Z.leb_gt; exact Hcmp).
      exact Hv.
Qed.

Lemma total_pages_stop_uses_reported_page_witness :
  exists rows meta raw,
    Cli.loop_body (Fixture.args "position" 500) Cli.initial
      (Fixture.paged [Fixture.sample 1] [("page", JInt 3); ("total_pages", JInt 3)])
    = Ok (Cli.Return (Cli.Triple rows meta raw)).
Proof.
  exact (proj1 (proj1 (proj2 (proj1 total_pages_stop_uses_reported_page
                                (Fixture.args "position" 500) Cli.initial
                                [("success", JBool true);
                                 ("data", JDict [("positions", JList [Fixture.sample 1])]);
                                 ("pagination",
                                  JDict [("page", JInt 3); ("total_pages", JInt 3)])]
                                [("page", JInt 3); ("total_pages", JInt 3)]
                                3 (Fixture.sample 1) []
                                eq_refl eq_refl eq_refl eq_refl eq_refl))
                      3 eq_refl)
               (Z.le_refl 3)).
Defined.

(** The third scenario of the spec, with 5 and 3 rows for 50 and 30. *)
Example two_pages_of_two :
  let p1 := Fixture.paged (map Fixture.sample [1; 2; 3; 4; 5]) [("total_pages", JInt 2)] in
  let p2 := Fixture.paged (map Fixture.sample [6; 7; 8]) [("total_pages", JInt 2)] in
  option_map (fun x => (fst x, List.length (log (snd x))))
    (Cli.fetch_extended_all_pages (Fixture.args "position" 1000) 10
       (Fixture.script [Fixture.ok p1; Fixture.ok p2]))
  = Some (Ok (Cli.Triple (map Fixture.sample [1; 2; 3; 4; 5; 6; 7; 8]) (JDict []) [p1; p2]),
          2%nat).
Proof. reflexivity. Qed.

(** Two more scenarios of the spec: the literal-field rule for a type other
    than position and voltage, and a page whose envelope declares failure. *)
Example humidity_literal_field :
  Cli.page_rows "humidity" (JDict [("humidity", JList [Fixture.sample 41])])
  = [Fixture.sample 41]
  /\ Coordinator._extract_extended_rows
       [("data", JDict [("humidity", JList [Fixture.sample 41])])] "humidity"
     = [Fixture.sample 41].
Proof. split; reflexivity. Qed.

Example rate_limited_page : forall fuel,
  option_map fst
    (Cli.fetch_extended_all_pages (Fixture.args "position" 500) (S fuel)
       (Fixture.script [Fixture.ok Fixture.rate_limited]))
  = Some (Raise (Exn RuntimeError (MsgExtended "position" (JStr "rate limited")))).
Proof. reflexivity. Qed.

(* ===================================================================== *)
(** * Row extraction, in both programs *)
(* ===================================================================== *)

Lemma py_or_dict : forall (data : pydict) k v,
  assoc k data = Some v -> py_or (JDict data) (JDict []) = JDict data.
Proof. intros [ | kv data] k v H; [ discriminate | reflexivity ]. Qed.

Lemma py_or_truthy : forall a b, truthy a = true -> py_or a b = a.
Proof. intros a b H. unfold py_or. rewrite H. reflexivity. Qed.

Lemma get_assoc : forall (d : pydict) k v, assoc k d = Some v -> get d k = v.
Proof. intros d k v H. unfold get. rewrite H. reflexivity. Qed.

Lemma get_default_assoc : forall (d : pydict) k v default,
  assoc k d = Some v -> get_default d k default = v.
Proof. intros d k v default H. unfold get_default. rewrite H. reflexivity. Qed.

Lemma eqb_other : forall s t : string, s <> t -> String.eqb s t = false.
Proof. intros s t H. apply String.eqb_neq. exact H. Qed.

(** C6, as amended: for a value [v] that is not a list, the paginator of the
    stand-alone tool returns the one-element list [[v]] when [v] stands
    under [positions] or [voltage] and is not null, or stands under the name
    of another type and is truthy; the coordinator's [_extract_extended_rows]
    returns the empty list for the same value. *)
Theorem lone_value_extraction : forall data v,
  is_list v = false ->
  (assoc "positions" data = Some v -> v <> JNull ->
     Cli.page_rows "position" (JDict data) = [v])
  /\ (assoc "voltage" data = Some v -> v <> JNull ->
        Cli.page_rows "voltage" (JDict data) = [v])
  /\ (forall typ, typ <> "position" -> typ <> "voltage" ->
        assoc typ data = Some v -> truthy v = true ->
        Cli.page_rows typ (JDict data) = [v])
  /\ (forall payload, get payload "data" = JDict data ->
        (assoc "positions" data = Some v ->
           Coordinator._extract_extended_rows payload "position" = [])
        /\ (assoc "voltage" data = Some v ->
              Coordinator._extract_extended_rows payload "voltage" = [])
        /\ (forall typ, typ <> "position" -> typ <> "voltage" ->
              assoc typ data = Some v -> truthy v = true ->
              Coordinator._extract_extended_rows payload typ = [])).
Proof.
  intros data v Hl.
  split; [ | split; [ | split ] ].
  - intros H N. unfold Cli.page_rows. rewrite (py_or_dict _ _ _ H).
    cbn [String.eqb Ascii.eqb Bool.eqb]. rewrite (get_default_assoc _ _ _ _ H).
    destruct v; try reflexivity; [ contradiction | discriminate ].
  - intros H N. unfold Cli.page_rows. rewrite (py_or_dict _ _ _ H).
    cbn [String.eqb Ascii.eqb Bool.eqb]. rewrite (get_default_assoc _ _ _ _ H).
    destruct v; try reflexivity; [ contradiction | discriminate ].
  - intros typ Np Nv H T. unfold Cli.page_rows. rewrite (py_or_dict _ _ _ H).
    rewrite (eqb_other _ _ Np), (eqb_other _ _ Nv), (get_assoc _ _ _ H).
    rewrite !(py_or_truthy _ _ T).
    destruct v; try reflexivity; discriminate.
  - intros payload Hd. unfold Coordinator._extract_extended_rows. rewrite Hd.
    split; [ | split ].
    + intros H. rewrite (py_or_dict _ _ _ H).
      cbn [String.eqb Ascii.eqb Bool.eqb]. rewrite (get_default_assoc _ _ _ _ H).
      destruct v; try reflexivity; discriminate.
    + intros H. rewrite (py_or_dict _ _ _ H).
      cbn [String.eqb Ascii.eqb Bool.eqb]. rewrite (get_default_assoc _ _ _ _ H).
      destruct v; try reflexivity; discriminate.
    + intros typ Np Nv H T. rewrite (py_or_dict _ _ _ H).
      rewrite (eqb_other _ _ Np), (eqb_other _ _ Nv), (get_assoc _ _ _ H).
      rewrite !(py_or_truthy _ _ T).
      destruct v; try reflexivity; discriminate.
Qed.

Lemma lone_value_extraction_witness :
  Cli.page_rows "position" (JDict [("positions", Fixture.position_row)])
  = [Fixture.position_row].
Proof.
  apply (proj1 (lone_value_extraction [("positions", Fixture.position_row)]
                  Fixture.position_row eq_refl));
    [ reflexivity | discriminate ].
Defined.

(** C6, the claim as stated fails: the coordinator drops a lone position
    object, and the stand-alone tool drops a lone falsy reading of a type
    other than position and voltage. *)
Lemma lone_object_dropped_counterexample :
  is_list Fixture.position_row = false
  /\ Coordinator._extract_extended_rows
       [("success", JBool true); ("data", JDict [("positions", Fixture.position_row)])]
       "position"
     = []
  /\ Cli.page_rows "temp" (JDict [("temp", JInt 0)]) = [].
Proof. repeat split. Qed.

(* ===================================================================== *)
(** * More on the request layer and the refresh cycle *)
(* ===================================================================== *)

Lemma request_ok_inv : forall method path body w d w',
  Api._request method path body w = (Ok d, w') ->
  exists status,
    responder w (map fst (log w) ++ [mkRequest method path body])
      = HttpResponse status (Some (JDict d))
    /\ status < 400.
Proof.
  intros method path body w d w' H. rewrite request_unfold in H.
  injection H as H _. unfold Api._request_result in H.
  destruct (responder w _) as [e | status [data | ]]; try discriminate.
  destruct (status >=? 400) eqn:Hs; [ discriminate | ].
  rewrite Z.geb_leb in Hs. apply Z.leb_gt in Hs.
  destruct data as [ | b | z | f | s | l | d0 ]; try discriminate.
  destruct (is_False (get d0 "success")); [ discriminate | ].
  injection H as <-. exists status. split; [ reflexivity | exact Hs ].
Qed.

(** X1: [_request] returns a payload exactly when the response has a status
    below 400 and a body that is an object whose [success] is not [False];
    the payload is that body. *)
Theorem request_returns_iff : forall method path body w d,
  fst (Api._request method path body w) = Ok d <->
  exists status,
    responder w (map fst (log w) ++ [mkRequest method path body])
      = HttpResponse status (Some (JDict d))
    /\ status < 400
    /\ get d "success" <> JBool false.
Proof.
  intros method path body w d. rewrite request_unfold. cbn [fst].
  unfold Api._request_result.
  destruct (responder w _) as [e | status [data | ]].
  - split; [ discriminate | intros (st & H & _); discriminate ].
  - destruct (status >=? 400) eqn:Hs.
    + split; [ discriminate | ].
      intros (st & H & Hlt & _). injection H as <- _.
      rewrite Z.geb_leb in Hs. apply Z.leb_le in Hs. lia.
    + rewrite Z.geb_leb in Hs. apply Z.leb_gt in Hs.
      destruct data as [ | b | z | f | s | l | d0 ];
        try (split; [ discriminate | intros (st & H & _); discriminate ]).
      destruct (is_False (get d0 "success")) eqn:E.
      * apply is_False_spec in E.
        split; [ discriminate | ].
        intros (st & H & _ & N). injection H as _ <-. contradiction.
      * split.
        -- intros H. injection H as <-. exists status.
           split; [ reflexivity | split; [ exact Hs | ] ].
           intros C. apply is_False_spec in C. congruence.
        -- intros (st & H & _). injection H as _ <-. reflexivity.
  - split; [ discriminate | intros (st & H & _); discriminate ].
Qed.

Lemma request_log : forall method path body w r w',
  Api._request method path body w = (r, w') ->
  map fst (log w') = map fst (log w) ++ [mkRequest method path body].
Proof.
  intros method path body w r w' H. rewrite request_unfold in H.
  injection H as _ <-. cbn [log]. rewrite map_app. reflexivity.
Qed.

Lemma update_body_ok_inv : forall fe w snap w',
  Coordinator.update_body fe w = (Ok snap, w') ->
  exists w1 devices,
    Api.async_get_devices w = (Ok (Coordinator.devices_payload snap), w1)
    /\ py_get (py_or (get (Coordinator.devices_payload snap) "data") (JDict [])) "devices"
       = Ok devices
    /\ Coordinator.devices snap
       = match py_or devices (JList []) with JList l => l | _ => [] end
    /\ (if fe then Coordinator.extend_devices (Coordinator.devices snap) []
        else ret []) w1 = (Ok (Coordinator.extended snap), w').
Proof.
  intros fe w snap w' E. unfold Coordinator.update_body in E.
  apply bind_ok_inv in E. destruct E as (payload & w1 & E1 & E).
  apply bind_ok_inv in E. destruct E as (devs & w2 & E2 & E).
  apply bind_ok_inv in E. destruct E as (ext & w3 & E3 & E).
  injection E2 as E2 <-. injection E as <- <-.
  cbn [Coordinator.devices_payload Coordinator.devices Coordinator.extended].
  exists w1, devs. repeat split; assumption.
Qed.

Lemma update_ok_inv : forall fe w snap w',
  Coordinator._async_update_data fe w = (Ok snap, w') ->
  Coordinator.update_body fe w = (Ok snap, w').
Proof.
  intros fe w snap w' H. unfold Coordinator._async_update_data in H.
  destruct (Coordinator.update_body fe w) as [[snap0 | [c m]] w0];
    [ exact H | destruct c; discriminate ].
Qed.

(** X2: A returned snapshot carries the body of the device-list response as it
    came, and, when that body has a list under [data.devices], that list as
    its device list: same devices, same order, none dropped. *)
Theorem snapshot_carries_device_list : forall fetch_extended w snap w',
  Coordinator._async_update_data fetch_extended w = (Ok snap, w') ->
  (exists status,
     responder w (map fst (log w) ++ [Cycle.devices_request])
       = HttpResponse status (Some (JDict (Coordinator.devices_payload snap)))
     /\ status < 400)
  /\ (forall data l,
        get (Coordinator.devices_payload snap) "data" = JDict data ->
        get data "devices" = JList l ->
        Coordinator.devices snap = l).
Proof.
  intros fe w snap w' H. apply update_ok_inv in H.
  destruct (update_body_ok_inv _ _ _ _ H) as (w1 & devs & E1 & E2 & E3 & _).
  split.
  - unfold Api.async_get_devices in E1. apply request_ok_inv in E1. exact E1.
  - intros data l Hd Hl. rewrite E3. rewrite Hd in E2.
    destruct data as [ | kv data]; [ discriminate | ].
    cbn [py_or truthy py_get] in E2. injection E2 as <-. rewrite Hl.
    destruct l; reflexivity.
Qed.

Lemma snapshot_carries_device_list_witness :
  exists snap,
    fst (Coordinator._async_update_data false
           (Fixture.script [Fixture.ok (Fixture.device_list
                                          [Fixture.device "d1"; JDict []])]))
    = Ok snap
    /\ Coordinator.devices snap = [Fixture.device "d1"; JDict []].
Proof.
  eexists. split; [ reflexivity | ].
  refine (proj2 (snapshot_carries_device_list false
                   (Fixture.script [Fixture.ok (Fixture.device_list
                                                  [Fixture.device "d1"; JDict []])])
                   _ _ eq_refl) _ _ eq_refl eq_refl).
Defined.

Lemma extended_request_log : forall device_id typ w r w',
  Api.async_get_extended device_id typ 1 1 w = (r, w') ->
  map fst (log w') = map fst (log w) ++ [Cycle.extended_request device_id typ].
Proof.
  intros device_id typ w r w' H. unfold Api.async_get_extended in H.
  apply request_log in H. exact H.
Qed.

(** What one turn of [for d in devices] that does not [continue] has done
    when the loop goes on. *)
Lemma extend_devices_turn : forall d ds acc w acc' w',
  Coordinator.extend_devices (d :: ds) acc w = (Ok acc', w') ->
  exists device_id,
    py_get d "id" = Ok device_id
    /\ ((truthy device_id = false
         /\ Coordinator.extend_devices ds acc w = (Ok acc', w'))
        \/ (truthy device_id = true
            /\ exists pos_payload volt_payload w1 w2,
                 Api.async_get_extended device_id "position" 1 1 w = (Ok pos_payload, w1)
                 /\ Api.async_get_extended device_id "voltage" 1 1 w1
                    = (Ok volt_payload, w2)
                 /\ hashable device_id = true
                 /\ Coordinator.extend_devices ds
                      (setitem device_id
                         (Coordinator.set_latest "voltage_latest"
                            (Coordinator._extract_extended_rows volt_payload "voltage")
                            (Coordinator.set_latest "position_latest"
                               (Coordinator._extract_extended_rows pos_payload "position")
                               []))
                         acc) w2
                    = (Ok acc', w'))).
Proof.
  intros d ds acc w acc' w' H. cbn [Coordinator.extend_devices] in H.
  apply bind_ok_inv in H. destruct H as (device_id & w0 & H1 & H).
  injection H1 as H1 <-. exists device_id. split; [ exact H1 | ].
  destruct (truthy device_id); cbn [negb] in H; [ right | left; auto ].
  split; [ reflexivity | ].
  apply bind_ok_inv in H. destruct H as (pos_payload & w1 & Hp & H).
  apply bind_ok_inv in H. destruct H as (volt_payload & w2 & Hv & H).
  apply bind_ok_inv in H. destruct H as (acc1 & w3 & Hs & H).
  injection Hs as Hs <-. unfold py_setitem in Hs.
  destruct (hashable device_id); [ | discriminate ].
  injection Hs as <-.
  exists pos_payload, volt_payload, w1, w2. repeat split; assumption.
Qed.

Lemma extend_devices_requests : forall ds acc w acc' w',
  Coordinator.extend_devices ds acc w = (Ok acc', w') ->
  map fst (log w') = map fst (log w) ++ flat_map Cycle.device_requests ds.
Proof.
  induction ds as [ | d ds IH]; intros acc w acc' w' H.
  - injection H as _ <-. cbn. rewrite app_nil_r. reflexivity.
  - destruct (extend_devices_turn _ _ _ _ _ _ H)
      as (device_id & Hid & [(T & H') | (T & p & v & w1 & w2 & Hp & Hv & _ & H')]);
      cbn [flat_map]; unfold Cycle.device_requests at 1; rewrite Hid, T.
    + apply (IH _ _ _ _ H').
    + rewrite (IH _ _ _ _ H'), (extended_request_log _ _ _ _ _ Hv),
        (extended_request_log _ _ _ _ _ Hp).
      rewrite <- !app_assoc. reflexivity.
Qed.

(** X3: The requests of a cycle that returns a snapshot are the device-list
    request and then, for each device of the snapshot with a truthy id, in
    the order of the list, the position and the voltage request for page 1
    with page size 1; with [fetch_extended] off, the first one only. *)
Theorem cycle_requests_in_order : forall fetch_extended w snap w',
  Coordinator._async_update_data fetch_extended w = (Ok snap, w') ->
  map fst (log w')
  = map fst (log w)
    ++ Cycle.devices_request
       :: (if fetch_extended
           then flat_map Cycle.device_requests (Coordinator.devices snap)
           else []).
Proof.
  intros fe w snap w' H. apply update_ok_inv in H.
  destruct (update_body_ok_inv _ _ _ _ H) as (w1 & devs & E1 & _ & _ & E4).
  unfold Api.async_get_devices in E1. apply request_log in E1.
  destruct fe.
  - rewrite (extend_devices_requests _ _ _ _ _ E4), E1, <- app_assoc. reflexivity.
  - injection E4 as _ <-. rewrite E1. reflexivity.
Qed.

Lemma cycle_requests_in_order_witness :
  map fst
    (log (snd (Coordinator._async_update_data true
                 (Fixture.script
                    [Fixture.ok (Fixture.device_list [JDict []; Fixture.device "d1"]);
                     Fixture.ok (Fixture.positions [Fixture.position_row]);
                     Fixture.ok (Fixture.voltages [])]))))
  = [Cycle.devices_request;
     Cycle.extended_request (JStr "d1") "position";
     Cycle.extended_request (JStr "d1") "voltage"].
Proof.
  exact (cycle_requests_in_order true
           (Fixture.script
              [Fixture.ok (Fixture.device_list [JDict []; Fixture.device "d1"]);
               Fixture.ok (Fixture.positions [Fixture.position_row]);
               Fixture.ok (Fixture.voltages [])])
           _ _ eq_refl).
Defined.

(** X4: With [fetch_extended] off a cycle makes the device-list request and no
    other, whether it returns or raises, and a returned snapshot has an
    empty extended mapping. *)
Theorem cycle_without_extended : forall w,
  map fst (log (snd (Coordinator._async_update_data false w)))
  = map fst (log w) ++ [Cycle.devices_request]
  /\ (forall snap, fst (Coordinator._async_update_data false w) = Ok snap ->
        Coordinator.extended snap = []).
Proof.
  intros w.
  unfold Coordinator._async_update_data, Coordinator.update_body,
    Api.async_get_devices, bind, lift, ret.
  rewrite request_unfold.
  destruct (Api._request_result _) as [payload | [c m]].
  - destruct (py_get _ "devices") as [devs | [c m]].
    + split; [ cbn [snd log]; rewrite map_app; reflexivity | ].
      intros snap H. injection H as <-. reflexivity.
    + split; [ destruct c; cbn [snd log]; rewrite map_app; reflexivity | ].
      intros snap H. destruct c; discriminate.
  - split; [ destruct c; cbn [snd log]; rewrite map_app; reflexivity | ].
    intros snap H. destruct c; discriminate.
Qed.

Lemma key_eqb_refl : forall k, hashable k = true -> key_eqb k k = true.
Proof.
  intros k H. unfold key_eqb.
  destruct k as [ | b | z | f | s | l | d ]; try discriminate; cbn.
  - reflexivity.
  - destruct b; reflexivity.
  - rewrite Z.eqb_refl. reflexivity.
  - destruct f as [ sg | sg | | sg m e ]; cbn.
    + reflexivity.
    + destruct sg; reflexivity.
    + reflexivity.
    + rewrite Z.compare_refl, Pos.compare_cont_refl. destruct sg; reflexivity.
  - rewrite String.eqb_refl. reflexivity.
Qed.

(** [d[k] = v] keeps the keys of [d], in place, and adds [k] at the end
    when no key of [d] is [k] for the dict. *)
Lemma setitem_shape : forall V k (v : V) d,
  (map fst (setitem k v d) = map fst d
   /\ exists k', In k' (map fst d) /\ key_eqb k' k = true)
  \/ (map fst (setitem k v d) = map fst d ++ [k]
      /\ Forall (fun k' => key_eqb k' k = false) (map fst d)).
Proof.
  intros V k v d. induction d as [ | [k0 v0] d IH]; cbn [setitem map fst].
  - right. split; [ reflexivity | constructor ].
  - destruct (key_eqb k0 k) eqn:E; cbn [map fst].
    + left. split; [ reflexivity | exists k0; split; [ left; reflexivity | exact E ] ].
    + destruct IH as [(Hk & k' & Hin & Hk') | (Hk & Hall)].
      * left. rewrite Hk. split; [ reflexivity | ].
        exists k'. split; [ right; exact Hin | exact Hk' ].
      * right. rewrite Hk. split; [ reflexivity | constructor; assumption ].
Qed.

Lemma setitem_entries : forall V k (v : V) d k' v',
  hashable k = true ->
  In (k', v') (setitem k v d) ->
  In (k', v') d \/ (v' = v /\ key_eqb k' k = true).
Proof.
  intros V k v d k' v' Hh. induction d as [ | [k0 v0] d IH]; cbn [setitem].
  - intros [H | []]. injection H as <- <-. right. split; [ reflexivity | ].
    apply key_eqb_refl. exact Hh.
  - destruct (key_eqb k0 k) eqn:E.
    + intros [H | H]; [ | left; right; exact H ].
      injection H as <- <-. right. split; [ reflexivity | exact E ].
    + intros [H | H]; [ left; left; exact H | ].
      destruct (IH H) as [ | ]; [ left; right; assumption | right; assumption ].
Qed.

Lemma has_key_keys : forall V (d : list (json * V)) k,
  Cycle.has_key d k <-> exists k', In k' (map fst d) /\ key_eqb k' k = true.
Proof.
  intros V d k. unfold Cycle.has_key. split.
  - intros (k' & v & Hin & E). exists k'. split; [ | exact E ].
    apply in_map_iff. exists (k', v). split; [ reflexivity | exact Hin ].
  - intros (k' & Hin & E). apply in_map_iff in Hin.
    destruct Hin as ([k0 v] & Hk & Hin). cbn in Hk. subst k0.
    exists k', v. split; assumption.
Qed.

Lemma setitem_has_key : forall V k (v : V) d,
  hashable k = true ->
  Cycle.has_key (setitem k v d) k
  /\ (forall x, Cycle.has_key d x -> Cycle.has_key (setitem k v d) x).
Proof.
  intros V k v d Hh.
  destruct (setitem_shape V k v d) as [(Hk & k' & Hin & E) | (Hk & Hall)]; split.
  - apply has_key_keys. exists k'. rewrite Hk. split; assumption.
  - intros x Hx. apply has_key_keys in Hx. apply has_key_keys. rewrite Hk. exact Hx.
  - apply has_key_keys. exists k. rewrite Hk.
    split; [ apply in_or_app; right; left; reflexivity | apply key_eqb_refl; exact Hh ].
  - intros x Hx. apply has_key_keys in Hx. destruct Hx as (k' & Hin & E).
    apply has_key_keys. exists k'. rewrite Hk.
    split; [ apply in_or_app; left; exact Hin | exact E ].
Qed.

Lemma distinct_snoc : forall (R : json -> json -> Prop) l k,
  ForallOrdPairs R l -> Forall (fun k' => R k' k) l -> ForallOrdPairs R (l ++ [k]).
Proof.
  intros R l k H. induction H as [ | x l Hx H IH]; intros Hall; cbn.
  - constructor; constructor.
  - inversion Hall as [ | ? ? Hxk Hall']; subst. constructor.
    + apply Forall_app. split; [ exact Hx | constructor; [ exact Hxk | constructor ] ].
    + apply IH. exact Hall'.
Qed.

Lemma setitem_distinct : forall V k (v : V) d,
  Cycle.distinct_keys d -> Cycle.distinct_keys (setitem k v d).
Proof.
  intros V k v d H. unfold Cycle.distinct_keys in *.
  destruct (setitem_shape V k v d) as [(Hk & _) | (Hk & Hall)]; rewrite Hk.
  - exact H.
  - apply distinct_snoc; assumption.
Qed.

Lemma extend_devices_bundles : forall ds acc w acc' w',
  Coordinator.extend_devices ds acc w = (Ok acc', w') ->
  (forall x, Cycle.has_key acc x -> Cycle.has_key acc' x)
  /\ (forall d device_id, In d ds -> py_get d "id" = Ok device_id ->
        truthy device_id = true -> Cycle.has_key acc' device_id)
  /\ (Cycle.distinct_keys acc -> Cycle.distinct_keys acc').
Proof.
  induction ds as [ | d ds IH]; intros acc w acc' w' H.
  - injection H as <- _. split; [ auto | split; [ intros d id [] | auto ] ].
  - destruct (extend_devices_turn _ _ _ _ _ _ H)
      as (device_id & Hid & [(T & H') | (T & p & v & w1 & w2 & _ & _ & Hh & H')]);
      destruct (IH _ _ _ _ H') as (Hkeep & Hnew & Hdist).
    + split; [ exact Hkeep | split; [ | exact Hdist ] ].
      intros d' id' [<- | Hin] Hid' T'; [ congruence | eauto ].
    + destruct (setitem_has_key _ device_id
                  (Coordinator.set_latest "voltage_latest"
                     (Coordinator._extract_extended_rows v "voltage")
                     (Coordinator.set_latest "position_latest"
                        (Coordinator._extract_extended_rows p "position") []))
                  acc Hh) as (Hself & Hold).
      split; [ auto | split ].
      * intros d' id' [<- | Hin] Hid' T'; [ | eauto ].
        assert (id' = device_id) by congruence. subst id'. auto.
      * intros Hd. apply Hdist, setitem_distinct, Hd.
Qed.

(** X5: In a snapshot built with [fetch_extended] on, every device with a truthy
    id has a bundle under a key the dict takes for that id, and no two
    bundles stand under keys the dict takes for one. *)
Theorem every_device_has_one_bundle : forall w snap w',
  Coordinator._async_update_data true w = (Ok snap, w') ->
  (forall d device_id,
     In d (Coordinator.devices snap) -> py_get d "id" = Ok device_id ->
     truthy device_id = true ->
     Cycle.has_key (Coordinator.extended snap) device_id)
  /\ Cycle.distinct_keys (Coordinator.extended snap).
Proof.
  intros w snap w' H. apply update_ok_inv in H.
  destruct (update_body_ok_inv _ _ _ _ H) as (w1 & devs & _ & _ & _ & E4).
  destruct (extend_devices_bundles _ _ _ _ _ E4) as (_ & Hnew & Hdist).
  split; [ exact Hnew | apply Hdist; constructor ].
Qed.

Lemma every_device_has_one_bundle_witness :
  Cycle.has_key [(JInt 1, [("position_latest", Fixture.position_row)])] (JBool true).
Proof.
  refine (proj1 (every_device_has_one_bundle
                   (Fixture.script
                      [Fixture.ok (Fixture.device_list
                                     [JDict [("id", JInt 1)]; JDict [("id", JBool true)]]);
                       Fixture.ok (Fixture.positions []);
                       Fixture.ok (Fixture.voltages [Fixture.voltage_row]);
                       Fixture.ok (Fixture.positions [Fixture.position_row]);
                       Fixture.ok (Fixture.voltages [])])
                   _ _ eq_refl)
            (JDict [("id", JBool true)]) (JBool true) _ eq_refl eq_refl).
  right; left; reflexivity.
Defined.

Lemma extended_answer : forall device_id typ w payload w1,
  Api.async_get_extended device_id typ 1 1 w = (Ok payload, w1) ->
  exists o, log w1 = log w ++ [(Cycle.extended_request device_id typ, o)]
            /\ Api._request_result o = Ok payload.
Proof.
  intros device_id typ w payload w1 H. unfold Api.async_get_extended in H.
  rewrite request_unfold in H. injection H as H <-.
  eexists. split; [ reflexivity | exact H ].
Qed.

Lemma bundle_from_more : forall before lg after k ext,
  Cycle.bundle_from lg k ext -> Cycle.bundle_from (before ++ lg ++ after) k ext.
Proof.
  intros before lg after k ext (Hk & Hp & Hv).
  assert (M : forall name typ, Cycle.latest_from lg k ext name typ ->
                Cycle.latest_from (before ++ lg ++ after) k ext name typ).
  { intros name typ L r Hr.
    destruct (L r Hr) as (id & payload & rows & E & (o & Hin & Ho) & Hrows).
    exists id, payload, rows. split; [ exact E | split; [ | exact Hrows ] ].
    exists o. split; [ | exact Ho ].
    apply in_or_app; right. apply in_or_app; left. exact Hin. }
  split; [ exact Hk | split; apply M; assumption ].
Qed.

(** The bundle one turn of the loop builds from its two answers. *)
Lemma turn_bundle : forall device_id k pos_payload volt_payload o1 o2,
  key_eqb k device_id = true ->
  Api._request_result o1 = Ok pos_payload ->
  Api._request_result o2 = Ok volt_payload ->
  Cycle.bundle_from
    [(Cycle.extended_request device_id "position", o1);
     (Cycle.extended_request device_id "voltage", o2)]
    k
    (Coordinator.set_latest "voltage_latest"
       (Coordinator._extract_extended_rows volt_payload "voltage")
       (Coordinator.set_latest "position_latest"
          (Coordinator._extract_extended_rows pos_payload "position") [])).
Proof.
  intros device_id k pos_payload volt_payload o1 o2 E H1 H2.
  destruct (Coordinator._extract_extended_rows pos_payload "position")
    as [ | pr prows] eqn:Ep;
    destruct (Coordinator._extract_extended_rows volt_payload "voltage")
      as [ | vr vrows] eqn:Ev;
    cbn; (split; [ auto | ]); split; intros r Hr; cbn in Hr;
    try discriminate; injection Hr as <-.
  - exists device_id, volt_payload, vrows. split; [ exact E | split; [ | exact Ev ] ].
    exists o2. split; [ right; left; reflexivity | exact H2 ].
  - exists device_id, pos_payload, prows. split; [ exact E | split; [ | exact Ep ] ].
    exists o1. split; [ left; reflexivity | exact H1 ].
  - exists device_id, pos_payload, prows. split; [ exact E | split; [ | exact Ep ] ].
    exists o1. split; [ left; reflexivity | exact H1 ].
  - exists device_id, volt_payload, vrows. split; [ exact E | split; [ | exact Ev ] ].
    exists o2. split; [ right; left; reflexivity | exact H2 ].
Qed.

Lemma extend_devices_provenance : forall ds acc w acc' w',
  Coordinator.extend_devices ds acc w = (Ok acc', w') ->
  exists new,
    log w' = log w ++ new
    /\ forall k ext, In (k, ext) acc' ->
         In (k, ext) acc \/ Cycle.bundle_from new k ext.
Proof.
  induction ds as [ | d ds IH]; intros acc w acc' w' H.
  - injection H as <- <-. exists []. rewrite app_nil_r. auto.
  - destruct (extend_devices_turn _ _ _ _ _ _ H)
      as (device_id & Hid & [(T & H') | (T & p & v & w1 & w2 & Hp & Hv & Hh & H')]).
    + apply (IH _ _ _ _ H').
    + destruct (IH _ _ _ _ H') as (new & L & Hnew).
      destruct (extended_answer _ _ _ _ _ Hp) as (o1 & L1 & A1).
      destruct (extended_answer _ _ _ _ _ Hv) as (o2 & L2 & A2).
      exists ([(Cycle.extended_request device_id "position", o1);
               (Cycle.extended_request device_id "voltage", o2)] ++ new).
      split; [ rewrite L, L2, L1, <- !app_assoc; reflexivity | ].
      intros k ext Hin. destruct (Hnew k ext Hin) as [Hacc | Hb].
      * apply setitem_entries in Hacc; [ | exact Hh ].
        destruct Hacc as [ | (-> & E)]; [ left; assumption | right ].
        pose proof (turn_bundle device_id k p v o1 o2 E A1 A2) as Hb.
        exact (bundle_from_more []
                 [(Cycle.extended_request device_id "position", o1);
                  (Cycle.extended_request device_id "voltage", o2)] new _ _ Hb).
      * right.
        pose proof (bundle_from_more
                      [(Cycle.extended_request device_id "position", o1);
                       (Cycle.extended_request device_id "voltage", o2)]
                      new [] _ _ Hb) as Hb'.
        rewrite app_nil_r in Hb'. exact Hb'.
Qed.

(** X6: Every bundle of a returned snapshot has no key but [position_latest] and
    [voltage_latest], each at most once and in this order, and what stands
    under each is the first row, as [_extract_extended_rows] reads it, of an
    answer of this very cycle to the request of that type for a device whose
    id the dict takes for the bundle's key. *)
Theorem bundle_holds_first_rows : forall fetch_extended w snap w',
  Coordinator._async_update_data fetch_extended w = (Ok snap, w') ->
  exists new,
    log w' = log w ++ new
    /\ forall k ext, In (k, ext) (Coordinator.extended snap) ->
         Cycle.bundle_from new k ext.
Proof.
  intros fe w snap w' H. apply update_ok_inv in H.
  destruct (update_body_ok_inv _ _ _ _ H) as (w1 & devs & E1 & _ & _ & E4).
  unfold Api.async_get_devices in E1. rewrite request_unfold in E1.
  injection E1 as _ <-.
  destruct fe.
  - destruct (extend_devices_provenance _ _ _ _ _ E4) as (new & L & Hnew).
    cbn [log] in L.
    set (first := (mkRequest "GET" "/devices/info" None,
                   responder w (map fst (log w) ++ [mkRequest "GET" "/devices/info" None])))
      in *.
    exists (first :: new). split; [ rewrite L, <- app_assoc; reflexivity | ].
    intros k ext Hin. destruct (Hnew k ext Hin) as [[] | Hb].
    pose proof (bundle_from_more [first] new [] _ _ Hb) as Hb'.
    rewrite app_nil_r in Hb'. exact Hb'.
  - injection E4 as <- <-. eexists. split; [ reflexivity | intros k ext [] ].
Qed.

Lemma bundle_holds_first_rows_witness :
  exists new,
    new <> []
    /\ Cycle.bundle_from new (JStr "d1") [("position_latest", Fixture.position_row)].
Proof.
  destruct (bundle_holds_first_rows true
              (Fixture.script [Fixture.ok (Fixture.device_list [Fixture.device "d1"]);
                               Fixture.ok (Fixture.positions [Fixture.position_row]);
                               Fixture.ok (Fixture.voltages [])])
              _ _ eq_refl) as (new & L & Hb).
  exists new. split.
  - intros ->. discriminate L.
  - apply Hb. left. reflexivity.
Defined.


(* ===================================================================== *)
(** * More on the paginator *)
(* ===================================================================== *)

Lemma loop_body_ok_inv : forall a st payload s,
  Cli.loop_body a st payload = Ok s ->
  exists p pg,
    payload = JDict p
    /\ truthy (get p "success") = true
    /\ Cli.page_pagination (JDict p) = Ok (JDict pg).
Proof.
  intros a st payload s H. unfold Cli.loop_body in H.
  destruct payload as [ | b | z | f | s0 | l | p ]; try discriminate.
  cbn [py_get py_get_default rbind] in H.
  destruct (truthy (get p "success")) eqn:Hs; cbn [negb] in H; [ | discriminate ].
  destruct (Cli.page_pagination (JDict p)) as [pag | e] eqn:Hp; cbn [rbind] in H;
    [ | discriminate ].
  destruct pag as [ | b | z | f | s0 | l | pg ]; cbn [py_get rbind] in H;
    try discriminate.
  exists p, pg. split; [ reflexivity | split; [ exact Hs | exact Hp ] ].
Qed.

(** The four ways one turn can end without raising. *)
Lemma loop_body_cases : forall a st payload s,
  Cli.loop_body a st payload = Ok s ->
  let rows := Paging.payload_rows (Cli.typ a) payload in
  let all := Cli.all_rows st ++ rows in
  let meta := Paging.payload_meta payload in
  (Cli.max_rows a <= Z.of_nat (List.length all)
   /\ s = Cli.Return (Cli.Pair (slice_to (Cli.max_rows a) all) meta))
  \/ (Z.of_nat (List.length all) < Cli.max_rows a /\ rows = []
      /\ s = Cli.Return (Cli.Pair all meta))
  \/ (Z.of_nat (List.length all) < Cli.max_rows a /\ rows <> []
      /\ Paging.reports_total payload
      /\ s = Cli.Return (Cli.Triple all meta (Cli.raw_pages st ++ [payload])))
  \/ (Z.of_nat (List.length all) < Cli.max_rows a /\ rows <> []
      /\ s = Cli.Continue {| Cli.all_rows := all; Cli.page := Cli.page st + 1;
                             Cli.last_meta := meta;
                             Cli.raw_pages := Cli.raw_pages st ++ [payload] |}).
Proof.
  intros a st payload s H.
  destruct (loop_body_ok_inv _ _ _ _ H) as (p & pg & -> & Hs & Hp).
  rewrite (loop_body_readable a st p pg Hs Hp) in H. cbv zeta in *.
  cbn [Paging.payload_rows Paging.payload_meta].
  destruct (Cli.max_rows a <=? _) eqn:Hm.
  - left. apply Z.leb_le in Hm. injection H as <-. split; [ exact Hm | reflexivity ].
  - right. apply Z.leb_gt in Hm.
    destruct (Cli.page_rows (Cli.typ a) (get_default p "data" (JDict [])))
      as [ | x rows] eqn:Hr.
    + left. injection H as <-. repeat split; assumption.
    + right.
      destruct (int_value (get pg "total_pages")) as [t | ] eqn:Ht.
      * destruct (py_ge_int _ _ t) as [[ | ] | e]; cbn [rbind] in H;
          try discriminate; injection H as <-.
        -- left. split; [ exact Hm | split; [ discriminate | split; [ | reflexivity ] ] ].
           exists pg, t. split; assumption.
        -- right. split; [ exact Hm | split; [ discriminate | reflexivity ] ].
      * cbn [rbind] in H. injection H as <-.
        right. split; [ exact Hm | split; [ discriminate | reflexivity ] ].
Qed.

Lemma api_post_inv : forall path body w r w',
  Cli.api_post path body w = (r, w') ->
  exists o, r = Cli.response_json o
            /\ log w' = log w ++ [(mkRequest "POST" path (Some body), o)].
Proof.
  intros path body w r w' H. unfold Cli.api_post, exchange in H.
  injection H as <- <-. eexists. split; reflexivity.
Qed.

Lemma fetch_loop_ends : forall a n st w,
  Cli.max_rows a <= Z.of_nat (List.length (Cli.all_rows st)) + Z.of_nat n ->
  (1 <= n)%nat ->
  exists x, Cli.fetch_loop a n st w = Some x.
Proof.
  intros a n. induction n as [ | n IH]; intros st w Hb Hn; [ lia | ].
  cbn [Cli.fetch_loop].
  destruct (Cli.api_post _ _ w) as [[payload | e] w1]; [ | eauto ].
  destruct (Cli.loop_body a st payload) as [[r | st'] | e] eqn:E; [ eauto | | eauto ].
  destruct (loop_body_cases _ _ _ _ E)
    as [(_ & C) | [(_ & _ & C) | [(_ & _ & _ & C) | (Hlt & Hne & C)]]];
    try discriminate.
  injection C as ->. cbv zeta in *.
  assert (Hlen : (List.length (Cli.all_rows st) + 1
                  <= List.length (Cli.all_rows st
                                  ++ Paging.payload_rows (Cli.typ a) payload))%nat).
  { rewrite length_app.
    destruct (Paging.payload_rows (Cli.typ a) payload); [ contradiction | cbn; lia ]. }
  apply IH; cbn [Cli.all_rows]; lia.
Qed.

Lemma fetch_loop_more_fuel : forall a n st w x k,
  Cli.fetch_loop a n st w = Some x -> Cli.fetch_loop a (n + k) st w = Some x.
Proof.
  intros a n. induction n as [ | n IH]; intros st w x k H; [ discriminate | ].
  cbn [Cli.fetch_loop Nat.add] in *.
  destruct (Cli.api_post _ _ w) as [[payload | e] w1]; [ | exact H ].
  destruct (Cli.loop_body a st payload) as [[r | st'] | e]; [ exact H | | exact H ].
  apply IH. exact H.
Qed.

Lemma fetch_loop_requests : forall a n st w r w',
  Cli.fetch_loop a n st w = Some (r, w') ->
  (List.length (log w') <= List.length (log w) + n)%nat.
Proof.
  intros a n. induction n as [ | n IH]; intros st w r w' H; [ discriminate | ].
  cbn [Cli.fetch_loop] in H.
  destruct (Cli.api_post _ _ w) as [[payload | e] w1] eqn:Ep;
    destruct (api_post_inv _ _ _ _ _ Ep) as (o & _ & L).
  - destruct (Cli.loop_body a st payload) as [[r0 | st'] | e].
    + injection H as _ <-. rewrite L, length_app. cbn. lia.
    + apply IH in H. rewrite L, length_app in H. cbn in H. lia.
    + injection H as _ <-. rewrite L, length_app. cbn. lia.
  - injection H as _ <-. rewrite L, length_app. cbn. lia.
Qed.

(** X8: Whatever the server answers, a fetch ends, with a result or an
    exception, after at most [max(1, max_rows)] page requests: a page that
    lets the loop go on has added a row and left the count below
    [max_rows]. *)
Theorem fetch_ends_within_max_rows : forall a w0,
  let bound := Z.to_nat (Z.max 1 (Cli.max_rows a)) in
  exists r w',
    (forall fuel, (bound <= fuel)%nat ->
       Cli.fetch_extended_all_pages a fuel w0 = Some (r, w'))
    /\ (List.length (log w') <= List.length (log w0) + bound)%nat.
Proof.
  intros a w0 bound.
  destruct (fetch_loop_ends a bound Cli.initial w0) as ([r w'] & H).
  - subst bound. cbn [Cli.initial Cli.all_rows List.length]. lia.
  - subst bound. lia.
  - exists r, w'. split.
    + intros fuel Hf. replace fuel with (bound + (fuel - bound))%nat by lia.
      apply fetch_loop_more_fuel. exact H.
    + apply (fetch_loop_requests _ _ _ _ _ _ H).
Qed.

Lemma fetch_loop_returns : forall a (P : Cli.fetch_result -> Prop),
  (forall st payload r, Cli.loop_body a st payload = Ok (Cli.Return r) -> P r) ->
  forall n st w r w', Cli.fetch_loop a n st w = Some (Ok r, w') -> P r.
Proof.
  intros a P HP n. induction n as [ | n IH]; intros st w r w' H; [ discriminate | ].
  cbn [Cli.fetch_loop] in H.
  destruct (Cli.api_post _ _ w) as [[payload | e] w1]; [ | discriminate ].
  destruct (Cli.loop_body a st payload) as [[r0 | st'] | e] eqn:E; [ | | discriminate ].
  - injection H as <- _. apply (HP _ _ _ E).
  - apply (IH _ _ _ _ H).
Qed.

(** X9: For [max_rows >= 0], whatever the server answers and whichever stop ends
    the fetch, a returned row sequence has at most [max_rows] rows. *)
Theorem fetch_rows_within_max_rows : forall a fuel w0 r w',
  0 <= Cli.max_rows a ->
  Cli.fetch_extended_all_pages a fuel w0 = Some (Ok r, w') ->
  Z.of_nat (List.length (Cli.result_rows r)) <= Cli.max_rows a.
Proof.
  intros a fuel w0 r w' H0 H.
  apply (fetch_loop_returns a
           (fun r => Z.of_nat (List.length (Cli.result_rows r)) <= Cli.max_rows a))
    in H; [ exact H | ].
  intros st payload r0 E.
  destruct (loop_body_cases _ _ _ _ E)
    as [(Hm & C) | [(Hm & _ & C) | [(Hm & _ & _ & C) | (_ & _ & C)]]];
    try discriminate; injection C as ->; cbn [Cli.result_rows]; cbv zeta in *.
  - destruct (slice_to_nonneg _ _ _ H0 Hm) as (_ & ->). lia.
  - lia.
  - lia.
Qed.

Lemma fetch_rows_within_max_rows_witness :
  Z.of_nat (List.length [Fixture.sample 1; Fixture.sample 2]) <= 2.
Proof.
  exact (fetch_rows_within_max_rows (Fixture.args "position" 2) 3
           (Fixture.script
              [Fixture.ok (Fixture.positions
                             [Fixture.sample 1; Fixture.sample 2; Fixture.sample 3])])
           (Cli.Pair [Fixture.sample 1; Fixture.sample 2] (JDict []))
           _ (Z.le_0_2) eq_refl).
Defined.

Lemma last_cons : forall A (x : A) l d, l <> [] -> last (x :: l) d = last l d.
Proof. intros A x [ | y l] d H; [ contradiction | reflexivity ]. Qed.

Lemma fetch_loop_trace : forall a n st w r w',
  Cli.fetch_loop a n st w = Some (Ok r, w') ->
  exists payloads new,
    payloads <> []
    /\ log w' = log w ++ new
    /\ map fst new
       = map (Paging.page_request a) (Paging.pages_from (Cli.page st) (List.length payloads))
    /\ map (fun c => Cli.response_json (snd c)) new = map Ok payloads
    /\ Paging.result_meta r = Paging.payload_meta (last payloads JNull)
    /\ let all := Cli.all_rows st ++ flat_map (Paging.payload_rows (Cli.typ a)) payloads in
       match r with
       | Cli.Pair rows _ =>
           (Z.of_nat (List.length all) < Cli.max_rows a /\ rows = all)
           \/ (Cli.max_rows a <= Z.of_nat (List.length all)
               /\ rows = slice_to (Cli.max_rows a) all)
       | Cli.Triple rows _ raw =>
           Z.of_nat (List.length all) < Cli.max_rows a
           /\ rows = all
           /\ raw = Cli.raw_pages st ++ payloads
           /\ Paging.reports_total (last payloads JNull)
       end.
Proof.
  intros a n. induction n as [ | n IH]; intros st w r w' H; [ discriminate | ].
  cbn [Cli.fetch_loop] in H.
  destruct (Cli.api_post _ _ w) as [[payload | e] w1] eqn:Ep; [ | discriminate ].
  destruct (api_post_inv _ _ _ _ _ Ep) as (o & Ho & L).
  destruct (Cli.loop_body a st payload) as [[r0 | st'] | e] eqn:E; [ | | discriminate ].
  - injection H as <- <-.
    exists [payload], [(Paging.page_request a (Cli.page st), o)].
    split; [ discriminate | ]. split; [ exact L | ].
    split; [ reflexivity | ].
    split; [ cbn; rewrite <- Ho; reflexivity | ].
    cbn [flat_map last List.length]. rewrite app_nil_r.
    destruct (loop_body_cases _ _ _ _ E)
      as [(Hm & C) | [(Hm & _ & C) | [(Hm & _ & Ht & C) | (_ & _ & C)]]];
      try discriminate; injection C as ->; cbv zeta in *;
      cbn [Paging.result_meta]; (split; [ reflexivity | ]).
    + right. split; [ exact Hm | reflexivity ].
    + left. split; [ exact Hm | reflexivity ].
    + repeat split; assumption.
  - destruct (loop_body_cases _ _ _ _ E)
      as [(_ & C) | [(_ & _ & C) | [(_ & _ & _ & C) | (_ & _ & C)]]];
      try discriminate.
    injection C as ->. cbv zeta in *.
    destruct (IH _ _ _ _ H) as (payloads & new & Hne & L' & Hreq & Hresp & Hmeta & Hall).
    cbn [Cli.all_rows Cli.page Cli.raw_pages] in *.
    exists (payload :: payloads), ((Paging.page_request a (Cli.page st), o) :: new).
    split; [ discriminate | ].
    split; [ rewrite L', L, <- app_assoc; reflexivity | ].
    split; [ cbn; rewrite Hreq; reflexivity | ].
    split; [ cbn; rewrite Hresp, <- Ho; reflexivity | ].
    rewrite (last_cons _ _ _ _ Hne).
    split; [ exact Hmeta | ].
    cbn [flat_map]. rewrite app_assoc.
    destruct r as [rows meta | rows meta raw]; [ exact Hall | ].
    destruct Hall as (H1 & H2 & H3 & H4).
    rewrite <- app_assoc in H3. repeat split; assumption.
Qed.

(** X10: A fetch that returns has requested the pages 1, 2, ..., n in this order,
    each with the same device, type, page size and time filters, and got a
    decoded body for each.  The rows returned are the rows of these bodies,
    page after page, cut to the first [max_rows] when there are that many;
    the meta returned is that of the last body alone.  A three-value result
    comes only from a last page that reports an integer [total_pages], and
    its raw pages are exactly the bodies received. *)
Theorem fetch_result_from_pages : forall a fuel w0 r w',
  Cli.fetch_extended_all_pages a fuel w0 = Some (Ok r, w') ->
  exists payloads new,
    payloads <> []
    /\ log w' = log w0 ++ new
    /\ map fst new
       = map (Paging.page_request a) (Paging.pages_from 1 (List.length payloads))
    /\ map (fun c => Cli.response_json (snd c)) new = map Ok payloads
    /\ Paging.result_meta r = Paging.payload_meta (last payloads JNull)
    /\ let all := flat_map (Paging.payload_rows (Cli.typ a)) payloads in
       match r with
       | Cli.Pair rows _ =>
           (Z.of_nat (List.length all) < Cli.max_rows a /\ rows = all)
           \/ (Cli.max_rows a <= Z.of_nat (List.length all)
               /\ rows = slice_to (Cli.max_rows a) all)
       | Cli.Triple rows _ raw =>
           Z.of_nat (List.length all) < Cli.max_rows a
           /\ rows = all
           /\ raw = payloads
           /\ Paging.reports_total (last payloads JNull)
       end.
Proof.
  intros a fuel w0 r w' H. apply fetch_loop_trace in H. exact H.
Qed.

Lemma fetch_result_from_pages_witness :
  exists payloads,
    List.length payloads = 2%nat
    /\ map Fixture.sample [1; 2; 3; 4; 5; 6; 7; 8]
       = flat_map (Paging.payload_rows "position") payloads.
Proof.
  destruct (fetch_result_from_pages (Fixture.args "position" 1000) 10
              (Fixture.script
                 [Fixture.ok (Fixture.paged (map Fixture.sample [1; 2; 3; 4; 5])
                                [("total_pages", JInt 2)]);
                  Fixture.ok (Fixture.paged (map Fixture.sample [6; 7; 8])
                                [("total_pages", JInt 2)])])
              _ _ eq_refl)
    as (payloads & new & _ & _ & _ & _ & _ & _ & Hrows & Hraw & _).
  exists payloads. split; [ rewrite <- Hraw; reflexivity | exact Hrows ].
Defined.

(** X11: A page that fails ends the fetch at once with its exception, whatever
    rows the earlier pages brought: the request raised (transport, a status
    from 400 to 599, a body that is not JSON), or the body is an object
    whose [success] is absent or falsy, which raises RuntimeError with the
    [error] field when truthy and the whole body otherwise.  No row is
    returned and that page's request is the last one. *)
Theorem fetch_page_failure_aborts : forall a w0 st w r w',
  reaches a w0 st w ->
  Cli.api_post Cli.DEVICE_EXTENDED_PATH (Cli.request_body a (Cli.page st)) w = (r, w') ->
  (forall e, r = Raise e ->
     exists fuel0, forall fuel, (fuel0 <= fuel)%nat ->
       Cli.fetch_extended_all_pages a fuel w0 = Some (Raise e, w'))
  /\ (forall p, r = Ok (JDict p) -> truthy (get p "success") = false ->
        exists fuel0, forall fuel, (fuel0 <= fuel)%nat ->
          Cli.fetch_extended_all_pages a fuel w0
          = Some (Raise (Exn RuntimeError
                           (MsgExtended (Cli.typ a)
                              (if truthy (get p "error") then get p "error"
                               else JDict p))),
                  w')).
Proof.
  intros a w0 st w r w' R Hpost.
  destruct (reaches_fuel _ _ _ _ R) as (k & Hk).
  split.
  - intros e ->. exists (k + 1)%nat. intros fuel Hf.
    replace fuel with (k + S (fuel - k - 1))%nat by lia.
    rewrite Hk. cbn [Cli.fetch_loop]. rewrite Hpost. reflexivity.
  - intros p -> Hs. exists (k + 1)%nat. intros fuel Hf.
    replace fuel with (k + S (fuel - k - 1))%nat by lia.
    rewrite Hk, (fetch_loop_turn _ _ _ _ _ _ Hpost).
    unfold Cli.loop_body. cbn [py_get rbind]. rewrite Hs. reflexivity.
Qed.

Lemma fetch_page_failure_aborts_witness :
  exists fuel0, forall fuel, (fuel0 <= fuel)%nat ->
    option_map fst
      (Cli.fetch_extended_all_pages (Fixture.args "position" 500) fuel
         (Fixture.script [Fixture.ok (Fixture.positions [Fixture.sample 1]);
                          HttpResponse 503 None]))
    = Some (Raise (Exn HTTPError (MsgStatus 503))).
Proof.
  edestruct (fetch_page_failure_aborts (Fixture.args "position" 500)
               (Fixture.script [Fixture.ok (Fixture.positions [Fixture.sample 1]);
                                HttpResponse 503 None]))
    as (Hraise & _).
  - eapply reaches_next; [ apply reaches_start | reflexivity | reflexivity ].
  - reflexivity.
  - destruct (Hraise _ eq_refl) as (fuel0 & Hf).
    exists fuel0. intros fuel Hfuel. rewrite (Hf fuel Hfuel). reflexivity.
Defined.

(* ===================================================================== *)
(** * The loops of [main] *)
(* ===================================================================== *)


(** What one turn of [for typ in types] does, by the outcome of the [try]
    block and of the [print] that follows. *)
Lemma main_type_cases : forall o fuel typ out raw s,
  Cli.main_type o fuel typ (out, raw) s =
  match Cli.fetch_extended_all_pages (Paging.item_args o out typ) fuel (Cli.net s) with
  | None => None
  | Some (r, w') =>
      match (let? t := r in Cli.unpack3 t) with
      | Raise e =>
          match Cli.print (Cli.ErrorLine typ (str e)) (Cli.with_net w' s) with
          | Some (Ok _, s') =>
              Some (Ok (Cli.set_entry typ (Cli.ErrorEntry (str e)) out, raw), s')
          | Some (Raise pe, s') => Some (Raise pe, s')
          | None => None
          end
      | Ok (rows, meta, pages) =>
          match Cli.print (Cli.summary_line typ rows) (Cli.with_net w' s) with
          | Some (Ok _, s') =>
              Some (Ok (Cli.set_entry typ (Cli.RowsEntry rows meta) out,
                        raw ++ [{| Cli.raw_device_id := Cli.out_id out;
                                   Cli.raw_device_name := Cli.out_name out;
                                   Cli.raw_type := typ; Cli.raw_pages_of := pages |}]), s')
          | Some (Raise pe, s') => Some (Raise pe, s')
          | None => None
          end
      end
  end.
Proof.
  intros o fuel typ out raw s.
  unfold Cli.main_type, Cli.bindM, Cli.on_net, Cli.try_except, Cli.bindF, Cli.liftF,
    Cli.retF, Cli.retM, Paging.item_args.
  destruct (Cli.fetch_extended_all_pages _ fuel (Cli.net s))
    as [[[[rows meta | rows meta pages] | e] w'] | ]; cbn [rbind Cli.unpack3];
    try reflexivity;
    match goal with
    | |- context [Cli.print ?l ?s0] => destruct (Cli.print l s0) as [[[[] | pe] s'] | ]
    end; reflexivity.
Qed.





Lemma main_loop_cons : forall o fuel types d ds acc s,
  Cli.main_loop o fuel types (d :: ds) acc s
  = match Cli.device_header d with
    | Raise e => Some (Raise e, s)
    | Ok out =>
        match Cli.print (Cli.header_line out) s with
        | Some (Ok _, s1) =>
            match Cli.main_types o fuel types (out, snd acc) s1 with
            | Some (Ok r, s2) =>
                Cli.main_loop o fuel types ds (fst acc ++ [fst r], snd r) s2
            | Some (Raise e, s2) => Some (Raise e, s2)
            | None => None
            end
        | Some (Raise e, s1) => Some (Raise e, s1)
        | None => None
        end
    end.
Proof.
  intros o fuel types d ds acc s. cbn [Cli.main_loop]. unfold Cli.bindM, Cli.liftM.
  destruct (Cli.device_header d) as [out | e]; [ | reflexivity ].
  destruct (Cli.print (Cli.header_line out) s) as [[[[] | e] s1] | ]; reflexivity.
Qed.


Lemma set_str_keys : forall V k (v : V) d,
  (In k (map fst d) /\ map fst (set_str k v d) = map fst d)
  \/ (~ In k (map fst d) /\ map fst (set_str k v d) = map fst d ++ [k]).
Proof.
  intros V k v d. induction d as [ | [k0 v0] d IH]; cbn [set_str map fst].
  - right. split; [ intros [] | reflexivity ].
  - destruct (String.eqb k0 k) eqn:E; cbn [map fst].
    + apply String.eqb_eq in E. subst k0. left. split; [ left; reflexivity | reflexivity ].
    + apply String.eqb_neq in E.
      destruct IH as [(Hin & Hk) | (Hn & Hk)]; rewrite Hk.
      * left. split; [ right; exact Hin | reflexivity ].
      * right. split; [ intros [H | H]; [ contradiction | contradiction ] | reflexivity ].
Qed.

Lemma main_type_out : forall o fuel typ out raw s out1 raw1 s1,
  Cli.main_type o fuel typ (out, raw) s = Some (Ok (out1, raw1), s1) ->
  exists e, out1 = Cli.set_entry typ e out.
Proof.
  intros o fuel typ out raw s out1 raw1 s1 E. rewrite main_type_cases in E.
  destruct (Cli.fetch_extended_all_pages _ fuel (Cli.net s)) as [[r w0] | ];
    [ | discriminate ].
  destruct (let? t := r in Cli.unpack3 t) as [[[rows meta] pages] | e0];
    match type of E with
    | context [Cli.print ?l ?s0] => destruct (Cli.print l s0) as [[[[] | pe] s'] | ]
    end; try discriminate; injection E as <- _ _; eexists; reflexivity.
Qed.

Lemma main_types_out : forall o fuel types out raw w out' raw' w',
  Cli.main_types o fuel types (out, raw) w = Some (Ok (out', raw'), w') ->
  Paging.same_device out' out
  /\ (forall t, In t (map fst (Cli.out_extended out'))
                <-> In t (map fst (Cli.out_extended out)) \/ In t types)
  /\ (NoDup (map fst (Cli.out_extended out)) -> NoDup (map fst (Cli.out_extended out'))).
Proof.
  intros o fuel types. induction types as [ | typ types IH];
    intros out raw w out' raw' w' H; cbn [Cli.main_types] in H.
  - injection H as <- <- <-. unfold Paging.same_device.
    split; [ repeat split | split; [ intros t; cbn [In]; tauto | auto ] ].
  - unfold Cli.bindM in H.
    destruct (Cli.main_type o fuel typ (out, raw) w) as [[[[out1 raw1] | e1] w1] | ] eqn:E;
      try discriminate.
    destruct (IH _ _ _ _ _ _ H) as ((I1 & I2 & I3 & I4) & Hkeys & Hnodup).
    destruct (main_type_out _ _ _ _ _ _ _ _ _ E) as (e & ->).
    cbn [Cli.set_entry Cli.out_id Cli.out_name Cli.out_model
           Cli.out_status Cli.out_extended] in *.
    split; [ unfold Paging.same_device; repeat split; assumption | ].
    destruct (set_str_keys _ typ e (Cli.out_extended out)) as [(Hin & Hk) | (Hn & Hk)];
      rewrite Hk in *.
    + split; [ | exact Hnodup ].
      intros t. rewrite Hkeys. cbn [In]. split.
      * intros [ | ]; auto.
      * intros [ | [<- | ]]; auto.
    + split.
      * intros t. rewrite Hkeys, in_app_iff. cbn [In]. tauto.
      * intros Hnd. apply Hnodup. apply NoDup_app; [ exact Hnd | | ].
        -- constructor; [ intros [] | constructor ].
        -- intros x Hx [<- | []]. contradiction.
Qed.






(** Two devices, two types: an API error, a two-value result (the empty
    second page), a three-value result and an HTTP error.  All five requests
    are made, both devices are output and six lines are written. *)
Example main_loop_run :
  match Cli.main_loop Fixture.opts 10 ["position"; "voltage"]
          [Fixture.device "d1"; Fixture.device "d2"] ([], [])
          (Fixture.at_terminal Fixture.plain_terminal
             (Fixture.script
                [Fixture.ok Fixture.rate_limited;
                 Fixture.ok (Fixture.voltages [Fixture.voltage_row]);
                 Fixture.ok (Fixture.voltages []);
                 Fixture.ok (Fixture.paged [Fixture.sample 1]
                               [("page", JInt 1); ("total_pages", JInt 1)]);
                 HttpResponse 500 None]))
  with
  | Some (Ok (outs, _), s') =>
      Some (map Cli.out_extended outs, List.length (log (Cli.net s')),
            Cli.printed (Cli.tty s'))
  | _ => None
  end
  = Some ([[("position", Cli.ErrorEntry (MsgExtended "position" (JStr "rate limited")));
            ("voltage",
             Cli.ErrorEntry (MsgText "not enough values to unpack (expected 3, got 2)"))];
           [("position", Cli.RowsEntry [Fixture.sample 1] (JDict []));
            ("voltage", Cli.ErrorEntry (MsgStatus 500))]],
          5%nat,
          [Cli.DeviceLine (JStr "Car") (JStr "-") (JStr "d1") (JStr "-");
           Cli.ErrorLine "position" (MsgExtended "position" (JStr "rate limited"));
           Cli.ErrorLine "voltage"
             (MsgText "not enough values to unpack (expected 3, got 2)");
           Cli.DeviceLine (JStr "Car") (JStr "-") (JStr "d2") (JStr "-");
           Cli.ValueLine "position" 1 None (JInt 1);
           Cli.ErrorLine "voltage" (MsgStatus 500)]).
Proof. reflexivity. Qed.

(** X12: A run of the device loop that ends appends one item per device, in the
    order of the device list, with the id, name, model and status read from
    that device and exactly one entry for each distinct requested type. *)
Theorem main_outputs_every_device : forall o fuel types ds acc w outs raw w',
  Cli.main_loop o fuel types ds acc w = Some (Ok (outs, raw), w') ->
  exists items,
    outs = fst acc ++ items
    /\ Forall2 (fun d item =>
                  (exists header, Cli.device_header d = Ok header
                                  /\ Paging.same_device item header)
                  /\ (forall t, In t (map fst (Cli.out_extended item)) <-> In t types)
                  /\ NoDup (map fst (Cli.out_extended item)))
               ds items.
Proof.
  intros o fuel types ds. induction ds as [ | d ds IH];
    intros acc w outs raw w' H.
  - cbn [Cli.main_loop] in H. destruct acc as [outs0 raw0]. injection H as <- _ _.
    exists []. rewrite app_nil_r. split; [ reflexivity | constructor ].
  - rewrite main_loop_cons in H.
    destruct (Cli.device_header d) as [header | e] eqn:Eh; [ | discriminate ].
    destruct (Cli.print (Cli.header_line header) w) as [[[[] | e0] w0] | ];
      try discriminate.
    destruct (Cli.main_types o fuel types (header, snd acc) w0)
      as [[[[out1 raw1] | e1] w1] | ] eqn:E; try discriminate.
    cbn [fst snd] in H.
    destruct (IH _ _ _ _ _ H) as (items & -> & Hall).
    destruct (main_types_out _ _ _ _ _ _ _ _ _ E) as (Hsame & Hkeys & Hnodup).
    exists (out1 :: items). cbn [fst]. rewrite <- app_assoc.
    split; [ reflexivity | ]. constructor; [ | exact Hall ].
    split; [ exists header; split; [ exact Eh | exact Hsame ] | ].
    assert (Hempty : Cli.out_extended header = []).
    { unfold Cli.device_header in Eh.
      destruct d as [ | b | z | f | s | l | fields ]; try discriminate.
      cbn [py_get py_get_default rbind] in Eh.
      destruct (py_get_default _ "model" _) as [m | ]; [ | discriminate ].
      cbn [rbind] in Eh. injection Eh as <-. reflexivity. }
    rewrite Hempty in *. split.
    + intros t. rewrite Hkeys. cbn [map In]. tauto.
    + apply Hnodup. constructor.
Qed.

Lemma main_outputs_every_device_witness :
  exists items,
    List.length items = 2%nat
    /\ Forall (fun item => map fst (Cli.out_extended item) = ["position"; "voltage"]) items.
Proof.
  destruct (main_outputs_every_device Fixture.opts 10 ["position"; "voltage"]
              [Fixture.device "d1"; Fixture.device "d2"] ([], [])
              (Fixture.at_terminal Fixture.plain_terminal
                 (Fixture.script
                    [Fixture.ok Fixture.rate_limited;
                     Fixture.ok (Fixture.voltages [Fixture.voltage_row]);
                     Fixture.ok (Fixture.voltages []);
                     Fixture.ok (Fixture.paged [Fixture.sample 1]
                                   [("page", JInt 1); ("total_pages", JInt 1)]);
                     HttpResponse 500 None]))
              _ _ _ eq_refl) as (items & Hitems & _).
  exists items. cbn [fst app] in Hitems. rewrite <- Hitems.
  split; [ reflexivity | repeat constructor ].
Defined.

(* ===================================================================== *)
(** * The entities *)
(* ===================================================================== *)

Lemma py_equal_hashable : forall a b,
  hashable b = true -> Entities.py_equal a b = py_eq a b.
Proof.
  intros a b Hb.
  destruct b as [ | b | z | f | s | l | d ]; try discriminate;
    destruct a as [ | a | y | g | t | la | da ]; reflexivity.
Qed.

Lemma key_eqb_py_equal : forall k x,
  hashable x = true -> is_nan x = false -> key_eqb k x = true ->
  Entities.py_equal k x = true.
Proof.
  intros k x Hx Hn H. rewrite (py_equal_hashable _ _ Hx).
  unfold key_eqb in H. rewrite Hn, andb_false_r in H. exact H.
Qed.

Lemma lookup_some : forall V (d : list (json * V)) k v,
  Entities.lookup k d = Some v ->
  exists k', In k' (map fst d) /\ key_eqb k' k = true.
Proof.
  intros V d k v. induction d as [ | [k0 v0] d IH]; cbn [Entities.lookup]; [ discriminate | ].
  destruct (key_eqb k0 k) eqn:E.
  - intros _. exists k0. split; [ left; reflexivity | exact E ].
  - intros H. destruct (IH H) as (k' & Hin & Hk). exists k'. split; [ right; exact Hin | exact Hk ].
Qed.

Lemma find_device_absent : forall ds device_id,
  (forall d, In d ds -> exists id, py_get d "id" = Ok id) ->
  (forall d id, In d ds -> py_get d "id" = Ok id -> Entities.py_equal id device_id = false) ->
  Entities.find_device ds device_id = Ok (JDict []).
Proof.
  induction ds as [ | d ds IH]; intros device_id Hd Hno; cbn [Entities.find_device].
  - reflexivity.
  - destruct (Hd d (or_introl eq_refl)) as (id & Hid). rewrite Hid. cbn [rbind].
    rewrite (Hno d id (or_introl eq_refl) Hid).
    apply IH; intros; [ apply Hd | eapply Hno ]; try right; eassumption.
Qed.

Lemma extend_devices_objects : forall ds acc w acc' w',
  Coordinator.extend_devices ds acc w = (Ok acc', w') ->
  forall d, In d ds -> exists id, py_get d "id" = Ok id.
Proof.
  induction ds as [ | d ds IH]; intros acc w acc' w' H d0 Hin; [ destruct Hin | ].
  destruct Hin as [<- | Hin].
  - destruct (extend_devices_turn _ _ _ _ _ _ H) as (id & Hid & _). eauto.
  - destruct (extend_devices_turn _ _ _ _ _ _ H)
      as (id & _ & [(_ & H') | (_ & p & v & w1 & w2 & _ & _ & _ & H')]);
      apply (IH _ _ _ _ H' d0 Hin).
Qed.

(** X13: After a cycle with [fetch_extended] on, an entity whose device id
    (hashable, not NaN) equals the id of no device of the snapshot reads
    nothing and does not raise: every sensor value is [None], the three
    binary sensors are off, latitude and longitude are [None], and the
    attributes carry the id and [None]s. *)
Theorem absent_device_reads_nothing : forall w snap w' device_id,
  Coordinator._async_update_data true w = (Ok snap, w') ->
  hashable device_id = true ->
  is_nan device_id = false ->
  (forall d id, In d (Coordinator.devices snap) -> py_get d "id" = Ok id ->
     Entities.py_equal id device_id = false) ->
  (forall key, Entities.native_value snap device_id key = Ok JNull)
  /\ (forall key, In key (map (fun b => fst (fst b)) Entities.BINS) ->
        Entities.is_on snap device_id key = Ok (JBool false))
  /\ Entities.latitude snap device_id = Ok JNull
  /\ Entities.longitude snap device_id = Ok JNull
  /\ Entities.sensor_attributes snap device_id
     = Ok [("swetrack_id", device_id); ("last_update", JNull);
           ("voltage_servertime", JNull)]
  /\ Entities.tracker_attributes snap device_id
     = Ok [("swetrack_id", device_id); ("last_update", JNull);
           ("position_time", JNull)].
Proof.
  intros w snap w' device_id H Hh Hn Hno. apply update_ok_inv in H.
  destruct (update_body_ok_inv _ _ _ _ H) as (w1 & devs & _ & _ & _ & E4).
  assert (Hdev : Entities._device snap device_id = Ok (JDict [])).
  { apply find_device_absent; [ | exact Hno ].
    apply (extend_devices_objects _ _ _ _ _ E4). }
  assert (Hext : Entities.bundle_of snap device_id = Ok []).
  { unfold Entities.bundle_of, Entities.dict_get. rewrite Hh.
    destruct (Entities.lookup device_id (Coordinator.extended snap)) as [ext | ] eqn:El;
      [ exfalso | reflexivity ].
    destruct (lookup_some _ _ _ _ El) as (k & Hin & Hk).
    destruct (extend_devices_keys _ _ _ _ _ E4 k Hin) as [Habs | (d & Hd & Hid)];
      [ destruct Habs | ].
    pose proof (Hno d k Hd Hid) as C.
    rewrite (key_eqb_py_equal _ _ Hh Hn Hk) in C. discriminate. }
  split; [ | split; [ | split; [ | split; [ | split ] ] ] ].
  - intros key. unfold Entities.native_value. rewrite Hdev, Hext. cbn [rbind py_get].
    destruct (String.eqb key "battery_internal"); [ reflexivity | ].
    destruct (String.eqb key "external_voltage"); [ reflexivity | ].
    destruct (String.eqb key "speed_current"); [ reflexivity | ].
    destruct (String.eqb key "speed_limit"); reflexivity.
  - intros key Hkey. unfold Entities.is_on. rewrite Hdev.
    cbn in Hkey. destruct Hkey as [<- | [<- | [<- | []]]]; reflexivity.
  - unfold Entities.latitude, Entities.position_field. rewrite Hdev. reflexivity.
  - unfold Entities.longitude, Entities.position_field. rewrite Hdev. reflexivity.
  - unfold Entities.sensor_attributes. rewrite Hdev, Hext. reflexivity.
  - unfold Entities.tracker_attributes. rewrite Hdev, Hext. reflexivity.
Qed.

Lemma absent_device_reads_nothing_witness :
  Entities.native_value
    {| Coordinator.devices_payload :=
         [("success", JBool true);
          ("data", JDict [("devices", JList [Fixture.device "d1"])])];
       Coordinator.devices := [Fixture.device "d1"];
       Coordinator.extended :=
         [(JStr "d1", [("position_latest", Fixture.position_row)])] |}
    (JStr "gone") "external_voltage"
  = Ok JNull.
Proof.
  refine (proj1 (absent_device_reads_nothing
                   (Fixture.script [Fixture.ok (Fixture.device_list [Fixture.device "d1"]);
                                    Fixture.ok (Fixture.positions [Fixture.position_row]);
                                    Fixture.ok (Fixture.voltages [])])
                   _ _ (JStr "gone") eq_refl eq_refl eq_refl _) "external_voltage").
  intros d id [<- | []] Hid. injection Hid as <-. reflexivity.
Defined.

(** X14: The external-voltage sensor of a device of the snapshot reads the
    [value] of the bundle's [voltage_latest] row whenever that value is not
    [None], whatever the device's own battery field holds, and the device's
    [battery.external_voltage] when the bundle has no such row or the row
    has no value. *)
Theorem external_voltage_prefers_latest : forall data device_id dev ext,
  Entities._device data device_id = Ok (JDict dev) ->
  Entities.bundle_of data device_id = Ok ext ->
  (forall row v, get ext "voltage_latest" = JDict row -> get row "value" = v ->
     v <> JNull ->
     Entities.native_value data device_id "external_voltage" = Ok v)
  /\ (truthy (get ext "voltage_latest") = false
      \/ (exists row, get ext "voltage_latest" = JDict row /\ get row "value" = JNull) ->
      Entities.native_value data device_id "external_voltage"
      = py_get (py_or (get dev "battery") (JDict [])) "external_voltage").
Proof.
  intros data device_id dev ext Hdev Hext.
  unfold Entities.native_value. rewrite Hdev, Hext.
  cbn [rbind py_get String.eqb Ascii.eqb Bool.eqb]. split.
  - intros row v Hrow Hv Hnn. rewrite Hrow.
    assert (T : py_or (JDict row) (JDict []) = JDict row).
    { destruct row; [ cbn in Hv; congruence | reflexivity ]. }
    rewrite T. cbn [py_get rbind]. rewrite Hv.
    destruct v; try reflexivity. contradiction.
  - intros [Hf | (row & Hrow & Hv)].
    + assert (T : py_or (get ext "voltage_latest") (JDict []) = JDict [])
        by (unfold py_or; rewrite Hf; reflexivity).
      rewrite T. reflexivity.
    + rewrite Hrow.
      assert (T : py_get (py_or (JDict row) (JDict [])) "value" = Ok JNull).
      { destruct row; [ reflexivity | cbn [py_or truthy py_get]; rewrite Hv; reflexivity ]. }
      rewrite T. reflexivity.
Qed.

Lemma external_voltage_prefers_latest_witness :
  Entities.native_value
    {| Coordinator.devices_payload := [];
       Coordinator.devices :=
         [JDict [("id", JStr "d1");
                 ("battery", JDict [("external_voltage", JInt 11)])]];
       Coordinator.extended := [(JStr "d1", [("voltage_latest", Fixture.voltage_row)])] |}
    (JStr "d1") "external_voltage"
  = Ok (JInt 12).
Proof.
  refine (proj1 (external_voltage_prefers_latest
                   {| Coordinator.devices_payload := [];
                      Coordinator.devices :=
                        [JDict [("id", JStr "d1");
                                ("battery", JDict [("external_voltage", JInt 11)])]];
                      Coordinator.extended :=
                        [(JStr "d1", [("voltage_latest", Fixture.voltage_row)])] |}
                   (JStr "d1") _ _ eq_refl eq_refl)
            _ (JInt 12) eq_refl eq_refl _).
  discriminate.
Defined.

(** X15: The tracker's [position_time] attribute is the [positiontime] of the
    bundle's [position_latest] row when that is truthy, and the [datetime]
    of the device's own [position_info] otherwise. *)
Theorem position_time_prefers_latest : forall data device_id dev ext,
  Entities._device data device_id = Ok (JDict dev) ->
  Entities.bundle_of data device_id = Ok ext ->
  let pos := py_or (get dev "position_info") (JDict []) in
  (forall row t, get ext "position_latest" = JDict row -> get row "positiontime" = t ->
     truthy t = true ->
     Entities.tracker_attributes data device_id
     = Ok [("swetrack_id", device_id); ("last_update", get dev "last_update");
           ("position_time", t)])
  /\ (forall fallback,
        truthy (get ext "position_latest") = false
        \/ (exists row, get ext "position_latest" = JDict row
                        /\ truthy (get row "positiontime") = false) ->
        py_get pos "datetime" = Ok fallback ->
        Entities.tracker_attributes data device_id
        = Ok [("swetrack_id", device_id); ("last_update", get dev "last_update");
              ("position_time", fallback)]).
Proof.
  intros data device_id dev ext Hdev Hext pos. subst pos.
  unfold Entities.tracker_attributes. rewrite Hdev, Hext. cbn [rbind py_get]. split.
  - intros row t Hrow Ht Htruthy. rewrite Hrow.
    assert (T : py_or (JDict row) (JDict []) = JDict row).
    { destruct row; [ cbn in Ht; subst t; discriminate | reflexivity ]. }
    rewrite T. cbn [py_get rbind]. rewrite Ht, Htruthy. reflexivity.
  - intros fallback Hcase Hfb.
    assert (T : exists t, py_get (py_or (get ext "position_latest") (JDict []))
                            "positiontime" = Ok t /\ truthy t = false).
    { destruct Hcase as [Hf | (row & Hrow & Hf)].
      - exists JNull. unfold py_or. rewrite Hf. split; reflexivity.
      - rewrite Hrow. destruct row as [ | kv row].
        + exists JNull. split; reflexivity.
        + eexists. split; [ reflexivity | exact Hf ]. }
    destruct T as (t & -> & Hf). cbn [rbind]. rewrite Hf, Hfb. reflexivity.
Qed.

Lemma position_time_prefers_latest_witness :
  Entities.tracker_attributes
    {| Coordinator.devices_payload := [];
       Coordinator.devices :=
         [JDict [("id", JStr "d1");
                 ("position_info", JDict [("datetime", JStr "2026-02-04T09:00:00Z")])]];
       Coordinator.extended :=
         [(JStr "d1", [("position_latest", Fixture.position_row)])] |}
    (JStr "d1")
  = Ok [("swetrack_id", JStr "d1"); ("last_update", JNull);
        ("position_time", JStr "2026-02-04T10:00:00Z")].
Proof.
  refine (proj1 (position_time_prefers_latest
                   {| Coordinator.devices_payload := [];
                      Coordinator.devices :=
                        [JDict [("id", JStr "d1");
                                ("position_info",
                                 JDict [("datetime", JStr "2026-02-04T09:00:00Z")])]];
                      Coordinator.extended :=
                        [(JStr "d1", [("position_latest", Fixture.position_row)])] |}
                   (JStr "d1") _ _ eq_refl eq_refl)
            _ _ eq_refl eq_refl eq_refl).
Defined.

Lemma sensor_entities_ids : forall ds ids,
  Forall2 (fun d id => Entities.subscript d "id" = inr id) ds ids ->
  exists ss,
    Entities.sensor_entities ds = inr ss
    /\ map Entities.sensor_device_id ss = flat_map (fun id => repeat id 4) ids
    /\ map Entities.sensor_key ss
       = flat_map (fun _ => map (fun s => fst (fst (fst s))) Entities.SENSORS) ids.
Proof.
  intros ds ids H. induction H as [ | d id ds ids Hd H (ss & IH & Hids & Hkeys)].
  - exists []. repeat split.
  - cbn [Entities.sensor_entities]. rewrite Hd, IH. eexists. split; [ reflexivity | ].
    rewrite !map_app, Hids, Hkeys. split; reflexivity.
Qed.

Lemma binary_entities_ids : forall ds ids,
  Forall2 (fun d id => Entities.subscript d "id" = inr id) ds ids ->
  exists bs,
    Entities.binary_entities ds = inr bs
    /\ map Entities.binary_device_id bs = flat_map (fun id => repeat id 3) ids
    /\ map Entities.binary_key bs
       = flat_map (fun _ => map (fun b => fst (fst b)) Entities.BINS) ids.
Proof.
  intros ds ids H. induction H as [ | d id ds ids Hd H (bs & IH & Hids & Hkeys)].
  - exists []. repeat split.
  - cbn [Entities.binary_entities]. rewrite Hd, IH. eexists. split; [ reflexivity | ].
    rewrite !map_app, Hids, Hkeys. split; reflexivity.
Qed.

Lemma tracker_entities_ids : forall ds ids,
  Forall2 (fun d id => Entities.subscript d "id" = inr id) ds ids ->
  exists ts,
    Entities.tracker_entities ds = inr ts /\ map Entities.tracker_device_id ts = ids.
Proof.
  intros ds ids H. induction H as [ | d id ds ids Hd H (ts & IH & Hids)].
  - exists []. split; reflexivity.
  - cbn [Entities.tracker_entities]. rewrite Hd, IH. eexists. split; [ reflexivity | ].
    cbn. rewrite Hids. reflexivity.
Qed.

Lemma entities_first_failure : forall before d after e,
  Forall (fun d => exists id, Entities.subscript d "id" = inr id) before ->
  Entities.subscript d "id" = inl e ->
  Entities.sensor_entities (before ++ d :: after) = inl e
  /\ Entities.binary_entities (before ++ d :: after) = inl e
  /\ Entities.tracker_entities (before ++ d :: after) = inl e.
Proof.
  intros before d after e H He. induction H as [ | d0 before (id & Hd) H (I1 & I2 & I3)].
  - cbn. rewrite He. repeat split.
  - cbn [app Entities.sensor_entities Entities.binary_entities Entities.tracker_entities].
    rewrite Hd, I1, I2, I3. repeat split.
Qed.

(** X16: The set-up of the three platforms reads [dev["id"]] of every device of
    the snapshot.  When every device is an object with an [id] key, the
    sensor platform creates four entities per device, the binary-sensor
    platform three and the tracker platform one, in the order of the
    device list, each with that device's id.  The first device that is not
    an object or has no [id] key makes all three set-ups raise (KeyError or
    TypeError), although the refresh cycle had accepted it. *)
Theorem platforms_need_device_ids : forall data,
  (forall ids,
     Forall2 (fun d id => Entities.subscript d "id" = inr id)
             (Coordinator.devices data) ids ->
     exists ss bs ts,
       Entities.sensor_setup data = inr ss
       /\ Entities.binary_setup data = inr bs
       /\ Entities.tracker_setup data = inr ts
       /\ map Entities.sensor_device_id ss = flat_map (fun id => repeat id 4) ids
       /\ map Entities.sensor_key ss
          = flat_map (fun _ => ["battery_internal"; "external_voltage";
                                "speed_current"; "speed_limit"]) ids
       /\ map Entities.binary_device_id bs = flat_map (fun id => repeat id 3) ids
       /\ map Entities.binary_key bs
          = flat_map (fun _ => ["connectivity"; "external_power"; "ignition"]) ids
       /\ map Entities.tracker_device_id ts = ids)
  /\ (forall before d after e,
        Coordinator.devices data = before ++ d :: after ->
        Forall (fun d => exists id, Entities.subscript d "id" = inr id) before ->
        Entities.subscript d "id" = inl e ->
        Entities.sensor_setup data = inl e
        /\ Entities.binary_setup data = inl e
        /\ Entities.tracker_setup data = inl e).
Proof.
  intros data. split.
  - intros ids H.
    destruct (sensor_entities_ids _ _ H) as (ss & Hs & Hs1 & Hs2).
    destruct (binary_entities_ids _ _ H) as (bs & Hb & Hb1 & Hb2).
    destruct (tracker_entities_ids _ _ H) as (ts & Ht & Ht1).
    exists ss, bs, ts. repeat split; assumption.
  - intros before d after e Hd Hbefore He.
    unfold Entities.sensor_setup, Entities.binary_setup, Entities.tracker_setup.
    rewrite Hd. apply entities_first_failure; assumption.
Qed.

Lemma platforms_need_device_ids_witness :
  exists snap,
    fst (Coordinator._async_update_data true
           (Fixture.script
              [Fixture.ok (Fixture.device_list [JDict [("name", JStr "Car")]])]))
    = Ok snap
    /\ Entities.sensor_setup snap = inl (Entities.KeyError "id").
Proof.
  pose (snap := {| Coordinator.devices_payload :=
                     [("success", JBool true);
                      ("data", JDict [("devices", JList [JDict [("name", JStr "Car")]])])];
                   Coordinator.devices := [JDict [("name", JStr "Car")]];
                   Coordinator.extended := [] |}).
  exists snap. split; [ reflexivity | ].
  refine (proj1 (proj2 (platforms_need_device_ids snap)
                   [] (JDict [("name", JStr "Car")]) [] _ eq_refl _ eq_refl)).
  constructor.
Defined.

(* ===================================================================== *)
(** * The configuration flow and the token file *)
(* ===================================================================== *)

Section FlowFacts.

Variable strip : string -> string.
Variable claim_unique_id : json -> result unit.

Lemma validate_first_failure : forall base_url w e,
  Api._request_result (responder w (map fst (log w) ++ [Cycle.devices_request])) = Raise e ->
  Flow.validate claim_unique_id base_url w
  = (Raise e,
     {| responder := responder w;
        log := log w ++ [(Cycle.devices_request,
                          responder w (map fst (log w) ++ [Cycle.devices_request]))] |}).
Proof.
  intros base_url w e H. unfold Flow.validate, bind, Api.async_get_devices.
  rewrite request_unfold. fold Cycle.devices_request. rewrite H. reflexivity.
Qed.

Lemma validate_ok_inv : forall base_url w w',
  Flow.validate claim_unique_id base_url w = (Ok tt, w') ->
  exists o1 o2,
    log w' = log w ++ [(Cycle.devices_request, o1); (Flow.account_request, o2)]
    /\ failed (Cycle.devices_request, o1) = false
    /\ failed (Flow.account_request, o2) = false.
Proof.
  intros base_url w w' H. unfold Flow.validate in H.
  apply bind_ok_inv in H. destruct H as (p1 & w1 & H1 & H).
  apply bind_ok_inv in H. destruct H as (p2 & w2 & H2 & H).
  apply bind_ok_inv in H. destruct H as (id & w3 & H3 & H).
  apply bind_ok_inv in H. destruct H as (email & w4 & H4 & H).
  injection H3 as _ <-. injection H4 as _ <-. injection H as _ <-.
  unfold Api.async_get_devices in H1. unfold Api.async_get_account_info in H2.
  rewrite request_unfold in H1, H2.
  injection H1 as R1 <-. injection H2 as R2 <-. cbn [log responder].
  eexists; eexists. split; [ rewrite <- app_assoc; reflexivity | ].
  unfold failed. cbn [snd]. rewrite R1, R2. split; reflexivity.
Qed.

(** X17: Without input the user step shows the empty form and requests nothing.
    With input, an entry is created only after GET /devices/info and then
    GET /account/info both returned a payload, nothing else being
    requested, and it holds the stripped token and base URL.  When the
    device-list request fails the account request is not made, and the form
    shows [auth] if the failure is a SweTrackApiError, which is the case for
    every status of 400 or more with a JSON body, and [unknown] otherwise. *)
Theorem user_step_outcome :
  (forall w,
     Flow.async_step_user strip claim_unique_id None w = (Flow.ShowForm [], w))
  /\ (forall u w token base_url w',
        Flow.async_step_user strip claim_unique_id (Some u) w
          = (Flow.CreateEntry token base_url, w') ->
        token = strip (Flow.input_token u)
        /\ base_url = strip (match Flow.input_base_url u with
                             | Some b => b
                             | None => Const.DEFAULT_BASE_URL
                             end)
        /\ exists o1 o2,
             log w' = log w ++ [(Cycle.devices_request, o1); (Flow.account_request, o2)]
             /\ failed (Cycle.devices_request, o1) = false
             /\ failed (Flow.account_request, o2) = false)
  /\ (forall u w errors w',
        Flow.async_step_user strip claim_unique_id (Some u) w = (Flow.ShowForm errors, w') ->
        errors = [("base", "auth")] \/ errors = [("base", "unknown")])
  /\ (forall u w e,
        Api._request_result (responder w (map fst (log w) ++ [Cycle.devices_request]))
          = Raise e ->
        exists w',
          Flow.async_step_user strip claim_unique_id (Some u) w
          = (Flow.ShowForm [("base",
                             match class_of e with
                             | SweTrackApiError => "auth"
                             | _ => "unknown"
                             end)], w')
          /\ map fst (log w') = map fst (log w) ++ [Cycle.devices_request])
  /\ (forall w status data,
        400 <= status ->
        responder w (map fst (log w) ++ [Cycle.devices_request])
          = HttpResponse status (Some data) ->
        forall u,
          fst (Flow.async_step_user strip claim_unique_id (Some u) w)
          = Flow.ShowForm [("base", "auth")]).
Proof.
  split; [ reflexivity | ].
  split; [ | split; [ | split ] ].
  - intros u w token base_url w' H. unfold Flow.async_step_user in H.
    destruct (Flow.validate _ _ w) as [[[] | [c m]] w1] eqn:E;
      [ | destruct c; discriminate ].
    injection H as <- <- <-.
    split; [ reflexivity | split; [ reflexivity | ] ].
    apply (validate_ok_inv _ _ _ E).
  - intros u w errors w' H. unfold Flow.async_step_user in H.
    destruct (Flow.validate _ _ w) as [[[] | [c m]] w1]; [ discriminate | ].
    destruct c; injection H as <- _; auto.
  - intros u w e He. unfold Flow.async_step_user.
    rewrite (validate_first_failure _ w e He).
    eexists. split.
    + destruct e as [c m]. destruct c; reflexivity.
    + cbn [log]. rewrite map_app. reflexivity.
  - intros w status data Hs Hr u. unfold Flow.async_step_user.
    rewrite (validate_first_failure _ w (Exn SweTrackApiError (MsgHttp status data))).
    + reflexivity.
    + rewrite Hr. unfold Api._request_result.
      replace (status >=? 400) with true
        by (symmetry; rewrite Z.geb_leb; apply Z.leb_le; exact Hs).
      reflexivity.
Qed.

End FlowFacts.

Lemma user_step_outcome_witness :
  fst (Flow.async_step_user (fun s => s) (fun _ => Ok tt)
         (Some {| Flow.input_token := "secret"; Flow.input_base_url := None |})
         (Fixture.script [HttpResponse 500 (Some (JStr "Internal Server Error"))]))
  = Flow.ShowForm [("base", "auth")].
Proof.
  exact (proj2 (proj2 (proj2 (proj2 (user_step_outcome (fun s => s) (fun _ => Ok tt)))))
           (Fixture.script [HttpResponse 500 (Some (JStr "Internal Server Error"))])
           500 (JStr "Internal Server Error") (proj1 (Z.leb_le 400 500) eq_refl) eq_refl
           {| Flow.input_token := "secret"; Flow.input_base_url := None |}).
Defined.

(** X18: [load_token] returns a token exactly when the file exists, holds a JSON
    object, and its [bearer_token] is a non-empty string; the token returned
    is that string stripped, and is not checked again: a string that strips
    to nothing is returned as the empty token. *)
Theorem load_token_accepts : forall strip file token,
  Config.load_token strip file = inr token <->
  exists d s,
    file = Some (Some (JDict d))
    /\ get d "bearer_token" = JStr s
    /\ s <> ""
    /\ token = strip s.
Proof.
  intros strip file token. unfold Config.load_token. split.
  - destruct file as [[data | ] | ]; try discriminate.
    destruct data as [ | b | z | f | s | l | d ]; try discriminate.
    destruct (get d "bearer_token") as [ | b | z | f | s | l | d' ] eqn:E;
      try discriminate.
    destruct (String.eqb s "") eqn:Es; [ discriminate | ].
    intros H. injection H as <-. exists d, s.
    apply String.eqb_neq in Es. repeat split; assumption.
  - intros (d & s & -> & E & Hs & ->). rewrite E.
    apply String.eqb_neq in Hs. rewrite Hs. reflexivity.
Qed.
